(** * httpreq: the request builder and its dispatch pipeline

    A shallow embedding of [httpreq/request.go].  Go strings are byte
    sequences and are modelled by [string] (a list of 8-bit [ascii]);
    Go maps by stdpp's [gmap]; slices by lists with checked indexing;
    the package's error values by an inductive type; the standard-library
    collaborators that perform I/O or parse URLs by a record of functions. *)

From Stdlib Require Import ZArith Ascii String List Lia Bool.
From stdpp Require Import base option list gmap strings sorting.

Local Open Scope string_scope.
Local Open Scope list_scope.

(** ** The [strings] package, as far as request.go calls it *)

Module strings.

(** [strings.HasPrefix(s, prefix)]. *)
Definition HasPrefix (s pre : string) : bool := String.prefix pre s.

(** [strings.Contains(s, substr)]: some suffix of [s] starts with
    [substr]. *)
Fixpoint Contains (s substr : string) : bool :=
  String.prefix substr s
  || match s with
     | EmptyString => false
     | String _ s' => Contains s' substr
     end.

(** [strings.Count(s, substr)] for a non-empty [substr]: occurrences are
    counted left to right and do not overlap; [skip] is the number of
    bytes of the last match still to be stepped over. *)
Fixpoint count_from (substr s : string) (skip : nat) : nat :=
  match s with
  | EmptyString => 0
  | String _ s' =>
      match skip with
      | S k => count_from substr s' k
      | O =>
          if String.prefix substr s
          then S (count_from substr s' (String.length substr - 1))
          else count_from substr s' 0
      end
  end.

Definition Count (s substr : string) : nat := count_from substr s 0.

(** Put a byte in front of the first segment. *)
Definition cons_head (c : ascii) (l : list string) : list string :=
  match l with
  | [] => [String c EmptyString]
  | seg :: rest => String c seg :: rest
  end.

(** [strings.Split(s, sep)] for a non-empty [sep]: the pieces of [s]
    between the left-to-right, non-overlapping occurrences of [sep];
    always at least one piece. *)
Fixpoint split_from (sep s : string) (skip : nat) : list string :=
  match s with
  | EmptyString => [EmptyString]
  | String c s' =>
      match skip with
      | S k => split_from sep s' k
      | O =>
          if String.prefix sep s
          then EmptyString :: split_from sep s' (String.length sep - 1)
          else cons_head c (split_from sep s' 0)
      end
  end.

Definition Split (s sep : string) : list string := split_from sep s 0.

(** [strings.Join(elems, sep)]. *)
Definition Join (elems : list string) (sep : string) : string :=
  String.concat sep elems.

End strings.

(** ** Constants of the package *)

Definition ContentTypeJSON : string := "application/json".
Definition ContentTypeURLENCODED : string := "application/x-www-form-urlencoded".
Definition pathParamIndicator : string := ":".
Definition urlSeparator : string := "/".
Definition urlPathParamSeparator : string := "/:".

(** [time.Duration] is a count of nanoseconds. *)
Definition Second : Z := 1000000000.
Definition defaultTimeout : Z := 30 * Second.

(** The method names of [net/http]. *)
Definition MethodGet : string := "GET".
Definition MethodHead : string := "HEAD".
Definition MethodPost : string := "POST".
Definition MethodPut : string := "PUT".
Definition MethodPatch : string := "PATCH".
Definition MethodDelete : string := "DELETE".
Definition MethodConnect : string := "CONNECT".
Definition MethodOptions : string := "OPTIONS".
Definition MethodTrace : string := "TRACE".


(** ** Errors *)

(** An error value produced by the standard library, by its message. *)
Definition LibErr : Type := string.

(** The [fmt.Errorf] wrappers of request.go, by their format string. *)
Inductive wrapper : Type :=
| wrapMarshal        (* "failed to marshall json request: %w" *)
| wrapCreateRequest  (* "failed to create request :%w" *)
| wrapQueryUnescape  (* "query unescape failed: %w" *)
| wrapParseProxy     (* "failed to parse proxy url %w" *)
| wrapDispatching    (* "dispatching request failed :%w" *)
| wrapReadingBody    (* "error reading body: %v" *)
| wrapDecode (status : Z). (* "failed to decode %d response: %w" *)

(** The package's error variables, and wrapped library errors. *)
Inductive error : Type :=
| errPathParamConflift
| errorMethodIsEmpty
| errMethodUnknown
| errorResponseStructIsNil
| errNoPathParamValueSet
| errPathParamPassedIncorrect
| Errorf (w : wrapper) (cause : LibErr).

(** The names the specification gives to these errors. *)
Definition EmptyMethod := errorMethodIsEmpty.
Definition UnknownMethod := errMethodUnknown.
Definition NoPathParamValue := errNoPathParamValueSet.
Definition PathParamCountMismatch := errPathParamPassedIncorrect.
Definition PathParamConflict := errPathParamConflift.
Definition NilResponseTarget := errorResponseStructIsNil.
Definition SerializationFailed := Errorf wrapMarshal.
Definition RequestConstructionFailed := Errorf wrapCreateRequest.
Definition QueryUnescapeFailed := Errorf wrapQueryUnescape.
Definition ProxyParseFailed := Errorf wrapParseProxy.
Definition DispatchFailed := Errorf wrapDispatching.
Definition ResponseReadFailed := Errorf wrapReadingBody.
Definition DecodeFailed (status : Z) := Errorf (wrapDecode status).

(** Run-time panics of the Go runtime. *)
Inductive panic : Type :=
| IndexOutOfRange (index len : nat)   (* "index out of range [index] with length len" *)
| NilDereference.

(** What a call does: return normally, return an error, or panic. *)
Inductive result (A : Type) : Type :=
| Ret (a : A)
| Fail (e : error)
| Panic (p : panic).
Arguments Ret {A} a.
Arguments Fail {A} e.
Arguments Panic {A} p.

(** ** [encoding/base64]: the standard encoding with padding *)

Module base64.

Definition encodeStd : string :=
  "ABCDEFGHIJKLMNOPQRSTUVWXYZabcdefghijklmnopqrstuvwxyz0123456789+/".

(** The character of a six-bit value. *)
Definition enc (v : N) : ascii :=
  match String.get (N.to_nat v) encodeStd with
  | Some c => c
  | None => "="%char
  end.

Definition put (a b c d : ascii) (rest : string) : string :=
  String a (String b (String c (String d rest))).

(** [Encoding.Encode] on the bytes of the source: three bytes give four
    characters; a remainder of one or two bytes is padded with '='. *)
Fixpoint encode (src : list N) : string :=
  match src with
  | [] => EmptyString
  | [x] =>
      let val := N.shiftl x 16 in
      put (enc (N.land (N.shiftr val 18) 63)) (enc (N.land (N.shiftr val 12) 63))
          "="%char "="%char EmptyString
  | [x; y] =>
      let val := N.lor (N.shiftl x 16) (N.shiftl y 8) in
      put (enc (N.land (N.shiftr val 18) 63)) (enc (N.land (N.shiftr val 12) 63))
          (enc (N.land (N.shiftr val 6) 63)) "="%char EmptyString
  | x :: y :: z :: rest =>
      let val := N.lor (N.lor (N.shiftl x 16) (N.shiftl y 8)) z in
      put (enc (N.land (N.shiftr val 18) 63)) (enc (N.land (N.shiftr val 12) 63))
          (enc (N.land (N.shiftr val 6) 63)) (enc (N.land val 63)) (encode rest)
  end.

(** [base64.StdEncoding.EncodeToString([]byte(s))]. *)
Definition EncodeToString (s : string) : string :=
  encode (map N_of_ascii (list_ascii_of_string s)).

End base64.

(** ** [net/url]: query values and their escaping *)

Module neturl.

(** [url.Values]: a key may carry several values, in insertion order. *)
Abbreviation Values := (gmap string (list string)).

(** [Values.Add]. *)
Definition Add (v : Values) (key value : string) : Values :=
  <[key := default [] (v !! key) ++ [value]]> v.

Definition upperhex : string := "0123456789ABCDEF".

Definition hexdigit (v : N) : ascii :=
  match String.get (N.to_nat v) upperhex with
  | Some c => c
  | None => "0"%char
  end.

Definition between (lo hi c : ascii) : bool :=
  (N_of_ascii lo <=? N_of_ascii c)%N && (N_of_ascii c <=? N_of_ascii hi)%N.

(** [shouldEscape(c, encodeQueryComponent)]: letters, digits and
    [-_.~] stay; everything else is escaped. *)
Definition shouldEscape (c : ascii) : bool :=
  if between "a" "z" c || between "A" "Z" c || between "0" "9" c then false
  else if (c =? "-")%char || (c =? "_")%char || (c =? ".")%char || (c =? "~")%char
  then false
  else true.

(** [url.QueryEscape]. *)
Fixpoint QueryEscape (s : string) : string :=
  match s with
  | EmptyString => EmptyString
  | String c s' =>
      if shouldEscape c then
        if (c =? " ")%char then String "+" (QueryEscape s')
        else String "%" (String (hexdigit (N.shiftr (N_of_ascii c) 4))
               (String (hexdigit (N.land (N_of_ascii c) 15)) (QueryEscape s')))
      else String c (QueryEscape s')
  end.

Definition ishex (c : ascii) : bool :=
  between "0" "9" c || between "a" "f" c || between "A" "F" c.

Definition unhex (c : ascii) : N :=
  if between "0" "9" c then N_of_ascii c - N_of_ascii "0"
  else if between "a" "f" c then N_of_ascii c - N_of_ascii "a" + 10
  else if between "A" "F" c then N_of_ascii c - N_of_ascii "A" + 10
  else 0.

(** [EscapeError]: the offending escape, at most three bytes. *)
Definition EscapeError (s : string) : LibErr :=
  "invalid URL escape " +:+ String.substring 0 3 s.

(** [url.QueryUnescape]: "%XX" becomes the byte XX and '+' a space; a
    '%' that is not followed by two hexadecimal digits is an error. *)
Fixpoint QueryUnescape (s : string) : string + LibErr :=
  match s with
  | EmptyString => inl EmptyString
  | String c s' =>
      if (c =? "%")%char then
        match s' with
        | String a (String b rest) =>
            if ishex a && ishex b then
              match QueryUnescape rest with
              | inl t => inl (String (ascii_of_N (N.lor (N.shiftl (unhex a) 4) (unhex b))) t)
              | inr e => inr e
              end
            else inr (EscapeError s)
        | _ => inr (EscapeError s)
        end
      else
        match QueryUnescape s' with
        | inl t => inl (String (if (c =? "+")%char then " "%char else c) t)
        | inr e => inr e
        end
  end.

(** [strings.Cut(s, "=")] on a pair: the key and the value. *)
Fixpoint cutPair (s : string) : string * string :=
  match s with
  | EmptyString => (EmptyString, EmptyString)
  | String c s' =>
      if (c =? "=")%char then (EmptyString, s')
      else let (key, value) := cutPair s' in (String c key, value)
  end.

(** The loop of [parseQuery] over the '&'-separated pairs; a pair that
    is empty, holds a ';' or does not unescape is skipped. *)
Fixpoint parsePairs (pairs : list string) (m : Values) : Values :=
  match pairs with
  | [] => m
  | p :: rest =>
      if String.eqb p "" || strings.Contains p ";" then parsePairs rest m
      else
        match QueryUnescape (fst (cutPair p)), QueryUnescape (snd (cutPair p)) with
        | inl key, inl value => parsePairs rest (Add m key value)
        | _, _ => parsePairs rest m
        end
  end.

(** [url.ParseQuery] with its error dropped, as [URL.Query] does. *)
Definition ParseQuery (query : string) : Values :=
  parsePairs (strings.Split query "&") ∅.

(** [sort.Strings] orders byte-wise. *)
Definition string_le (a b : string) : Prop := String.leb a b = true.

#[global] Instance string_le_dec a b : Decision (string_le a b).
Proof. unfold string_le. apply _. Defined.

(** One "key=value" pair per value of a key. *)
Definition encodePairs (key : string) (vs : list string) : list string :=
  map (fun v => QueryEscape key +:+ "=" +:+ QueryEscape v) vs.

(** [Values.Encode]: the pairs, keys in sorted order, joined by '&'. *)
Definition Encode (v : Values) : string :=
  let keys := merge_sort string_le (map fst (map_to_list v)) in
  String.concat "&"
    (flat_map (fun k => encodePairs k (default [] (v !! k))) keys).

End neturl.


(** ** The objects of [net/http] and [io] that the builder handles *)

(** An [io.Reader]: an in-memory buffer, or a stream whose content only
    the environment knows (a caller's reader, a network body). *)
Inductive Reader : Type :=
| Buffer (content : string)
| Stream (id : N).

(** A parsed [*url.URL]: [RawQuery] is the query text, without the '?';
    [Location] stands for the other components (scheme, host, path). *)
Record URL : Type := mkURL {
  Location : string;
  RawQuery : string
}.

(** An [http.RoundTripper]: the platform default, a transport built for
    a proxy, or one that came with a caller's client. *)
Inductive RoundTripper : Type :=
| DefaultTransport
| ProxyTransport (proxy : URL)
| CallerTransport (id : N).

(** An [http.Client], by the two fields the builder sets; a nil
    [Transport] stands for the default one. *)
Record Client : Type := mkClient {
  Transport : option RoundTripper;
  Timeout : Z
}.

(** An [http.Header], kept as the sequence of [Header.Add] calls made on
    it, oldest first. *)
Definition Header : Type := list (string * string).

Definition Header_Add (h : Header) (key value : string) : Header :=
  h ++ [(key, value)].

(** An [*http.Request]. *)
Record HTTPRequest : Type := mkHTTPRequest {
  req_Method : string;
  req_URL : URL;
  req_Header : Header;
  req_Body : option Reader
}.

(** An [*http.Response]. *)
Record Response : Type := mkResponse {
  StatusCode : Z;
  Status : string;
  Body : Reader
}.

Definition with_RawQuery (q : string) (req : HTTPRequest) : HTTPRequest :=
  {| req_Method := req_Method req;
     req_URL := {| Location := Location (req_URL req); RawQuery := q |};
     req_Header := req_Header req;
     req_Body := req_Body req |}.

Definition with_Header (h : Header) (req : HTTPRequest) : HTTPRequest :=
  {| req_Method := req_Method req; req_URL := req_URL req;
     req_Header := h; req_Body := req_Body req |}.

Definition with_Body (b : Reader) (res : Response) : Response :=
  {| StatusCode := StatusCode res; Status := Status res; Body := b |}.

(** What the pipeline does to the outside world, in order. [EvDo] is the
    only event that reaches the network. *)
Inductive event : Type :=
| EvLogDispatch (u : URL)                     (* log.Println *)
| EvDo (c : Client) (req : HTTPRequest)       (* httpcli.Do *)
| EvReadAll (b : Reader)                      (* ioutil.ReadAll *)
| EvLogResponse (code : Z) (status body : string)  (* log.Printf *)
| EvDecode (b : Reader)                       (* json Decode *)
| EvClose (b : Reader).                       (* Body.Close *)

(** The [Close] of a response body, when there is a response. *)
Definition closes (res : option Response) : list event :=
  match res with
  | Some res' => [EvClose (Body res')]
  | None => []
  end.

Section Builder.

(** The Go values a caller hands over as [interface{}]: the structured
    body and the decode target. *)
Context {Value : Type}.

(** ** The builder *)

Record Request : Type := mkRequest {
  url : string;
  method : string;
  headers : gmap string string;
  pathParams : list string;
  queryParams : gmap string string;
  unescapeQueryParams : bool;

  httpcli : option Client;
  proxyURL : string;
  transport : option RoundTripper;
  timeout : Z;
  contentType : string;
  verbose : bool;

  username : string;
  password : string;

  body : option Reader;
  bodyStruct : option Value;
  bodyValues : option neturl.Values
}.

(** [New]. *)
Definition New (method url : string) : Request :=
  {| url := url; method := method; headers := ∅; pathParams := [];
     queryParams := ∅; unescapeQueryParams := false;
     httpcli := None; proxyURL := ""; transport := None; timeout := 0;
     contentType := ""; verbose := false; username := ""; password := "";
     body := None; bodyStruct := None; bodyValues := None |}.

(** Assignments to single fields. *)
Definition set_url (u : string) (r : Request) : Request :=
  {| url := u; method := method r; headers := headers r;
     pathParams := pathParams r; queryParams := queryParams r;
     unescapeQueryParams := unescapeQueryParams r; httpcli := httpcli r;
     proxyURL := proxyURL r; transport := transport r; timeout := timeout r;
     contentType := contentType r; verbose := verbose r;
     username := username r; password := password r; body := body r;
     bodyStruct := bodyStruct r; bodyValues := bodyValues r |}.

Definition set_headers (h : gmap string string) (r : Request) : Request :=
  {| url := url r; method := method r; headers := h;
     pathParams := pathParams r; queryParams := queryParams r;
     unescapeQueryParams := unescapeQueryParams r; httpcli := httpcli r;
     proxyURL := proxyURL r; transport := transport r; timeout := timeout r;
     contentType := contentType r; verbose := verbose r;
     username := username r; password := password r; body := body r;
     bodyStruct := bodyStruct r; bodyValues := bodyValues r |}.

Definition set_pathParams (p : list string) (r : Request) : Request :=
  {| url := url r; method := method r; headers := headers r;
     pathParams := p; queryParams := queryParams r;
     unescapeQueryParams := unescapeQueryParams r; httpcli := httpcli r;
     proxyURL := proxyURL r; transport := transport r; timeout := timeout r;
     contentType := contentType r; verbose := verbose r;
     username := username r; password := password r; body := body r;
     bodyStruct := bodyStruct r; bodyValues := bodyValues r |}.

Definition set_queryParams (q : gmap string string) (r : Request) : Request :=
  {| url := url r; method := method r; headers := headers r;
     pathParams := pathParams r; queryParams := q;
     unescapeQueryParams := unescapeQueryParams r; httpcli := httpcli r;
     proxyURL := proxyURL r; transport := transport r; timeout := timeout r;
     contentType := contentType r; verbose := verbose r;
     username := username r; password := password r; body := body r;
     bodyStruct := bodyStruct r; bodyValues := bodyValues r |}.

Definition set_unescapeQueryParams (b : bool) (r : Request) : Request :=
  {| url := url r; method := method r; headers := headers r;
     pathParams := pathParams r; queryParams := queryParams r;
     unescapeQueryParams := b; httpcli := httpcli r;
     proxyURL := proxyURL r; transport := transport r; timeout := timeout r;
     contentType := contentType r; verbose := verbose r;
     username := username r; password := password r; body := body r;
     bodyStruct := bodyStruct r; bodyValues := bodyValues r |}.

Definition set_httpcli (c : option Client) (r : Request) : Request :=
  {| url := url r; method := method r; headers := headers r;
     pathParams := pathParams r; queryParams := queryParams r;
     unescapeQueryParams := unescapeQueryParams r; httpcli := c;
     proxyURL := proxyURL r; transport := transport r; timeout := timeout r;
     contentType := contentType r; verbose := verbose r;
     username := username r; password := password r; body := body r;
     bodyStruct := bodyStruct r; bodyValues := bodyValues r |}.

Definition set_proxyURL (p : string) (r : Request) : Request :=
  {| url := url r; method := method r; headers := headers r;
     pathParams := pathParams r; queryParams := queryParams r;
     unescapeQueryParams := unescapeQueryParams r; httpcli := httpcli r;
     proxyURL := p; transport := transport r; timeout := timeout r;
     contentType := contentType r; verbose := verbose r;
     username := username r; password := password r; body := body r;
     bodyStruct := bodyStruct r; bodyValues := bodyValues r |}.

Definition set_transport (t : option RoundTripper) (r : Request) : Request :=
  {| url := url r; method := method r; headers := headers r;
     pathParams := pathParams r; queryParams := queryParams r;
     unescapeQueryParams := unescapeQueryParams r; httpcli := httpcli r;
     proxyURL := proxyURL r; transport := t; timeout := timeout r;
     contentType := contentType r; verbose := verbose r;
     username := username r; password := password r; body := body r;
     bodyStruct := bodyStruct r; bodyValues := bodyValues r |}.

Definition set_timeout (t : Z) (r : Request) : Request :=
  {| url := url r; method := method r; headers := headers r;
     pathParams := pathParams r; queryParams := queryParams r;
     unescapeQueryParams := unescapeQueryParams r; httpcli := httpcli r;
     proxyURL := proxyURL r; transport := transport r; timeout := t;
     contentType := contentType r; verbose := verbose r;
     username := username r; password := password r; body := body r;
     bodyStruct := bodyStruct r; bodyValues := bodyValues r |}.

Definition set_verbose (v : bool) (r : Request) : Request :=
  {| url := url r; method := method r; headers := headers r;
     pathParams := pathParams r; queryParams := queryParams r;
     unescapeQueryParams := unescapeQueryParams r; httpcli := httpcli r;
     proxyURL := proxyURL r; transport := transport r; timeout := timeout r;
     contentType := contentType r; verbose := v;
     username := username r; password := password r; body := body r;
     bodyStruct := bodyStruct r; bodyValues := bodyValues r |}.

Definition set_credentials (u p : string) (r : Request) : Request :=
  {| url := url r; method := method r; headers := headers r;
     pathParams := pathParams r; queryParams := queryParams r;
     unescapeQueryParams := unescapeQueryParams r; httpcli := httpcli r;
     proxyURL := proxyURL r; transport := transport r; timeout := timeout r;
     contentType := contentType r; verbose := verbose r;
     username := u; password := p; body := body r;
     bodyStruct := bodyStruct r; bodyValues := bodyValues r |}.

Definition set_body (b : option Reader) (r : Request) : Request :=
  {| url := url r; method := method r; headers := headers r;
     pathParams := pathParams r; queryParams := queryParams r;
     unescapeQueryParams := unescapeQueryParams r; httpcli := httpcli r;
     proxyURL := proxyURL r; transport := transport r; timeout := timeout r;
     contentType := contentType r; verbose := verbose r;
     username := username r; password := password r; body := b;
     bodyStruct := bodyStruct r; bodyValues := bodyValues r |}.

Definition set_bodyStruct (v : option Value) (r : Request) : Request :=
  {| url := url r; method := method r; headers := headers r;
     pathParams := pathParams r; queryParams := queryParams r;
     unescapeQueryParams := unescapeQueryParams r; httpcli := httpcli r;
     proxyURL := proxyURL r; transport := transport r; timeout := timeout r;
     contentType := contentType r; verbose := verbose r;
     username := username r; password := password r; body := body r;
     bodyStruct := v; bodyValues := bodyValues r |}.

Definition set_bodyValues (v : option neturl.Values) (r : Request) : Request :=
  {| url := url r; method := method r; headers := headers r;
     pathParams := pathParams r; queryParams := queryParams r;
     unescapeQueryParams := unescapeQueryParams r; httpcli := httpcli r;
     proxyURL := proxyURL r; transport := transport r; timeout := timeout r;
     contentType := contentType r; verbose := verbose r;
     username := username r; password := password r; body := body r;
     bodyStruct := bodyStruct r; bodyValues := v |}.

(** The chained setters; each returns the builder. [HeaderSet], [SetBody]
    and [SetTimeout] are the methods [Header], [Body] and [Timeout], whose
    names are taken here by the types of [net/http]. A nil argument is
    [None]. *)
Definition HTTPClient (client : option Client) (r : Request) : Request :=
  set_httpcli client r.
Definition ProxyURL (u : string) (r : Request) : Request := set_proxyURL u r.
Definition PathParams (params : list string) (r : Request) : Request :=
  set_pathParams params r.
Definition QueryParam (key value : string) (r : Request) : Request :=
  set_queryParams (<[key := value]> (queryParams r)) r.
Definition HeaderSet (key value : string) (r : Request) : Request :=
  set_headers (<[key := value]> (headers r)) r.
Definition BodyStruct (request : option Value) (r : Request) : Request :=
  set_bodyStruct request r.
Definition BodyValues (values : option neturl.Values) (r : Request) : Request :=
  set_bodyValues values r.
Definition SetBody (reader : option Reader) (r : Request) : Request :=
  set_body reader r.
Definition SetTimeout (t : Z) (r : Request) : Request := set_timeout t r.
Definition UnescapeQueryParams (unescape : bool) (r : Request) : Request :=
  set_unescapeQueryParams unescape r.
Definition Verbose (v : bool) (r : Request) : Request := set_verbose v r.
Definition BasicAuth (u p : string) (r : Request) : Request :=
  set_credentials u p r.

(** ** Validation *)

(** [validateMethod]: [None] is Go's nil error. *)
Definition validateMethod (r : Request) : option error :=
  if String.eqb (method r) "" then Some errorMethodIsEmpty
  else if String.eqb (method r) MethodGet || String.eqb (method r) MethodPost
          || String.eqb (method r) MethodPut || String.eqb (method r) MethodDelete
          || String.eqb (method r) MethodHead || String.eqb (method r) MethodOptions
          || String.eqb (method r) MethodConnect || String.eqb (method r) MethodTrace
          || String.eqb (method r) MethodPatch
  then None
  else Some errMethodUnknown.

(** The loop of [validatePathParams] over the pieces of the URL: a piece
    that starts with ':' is overwritten by [pathParams[idx]] and [idx]
    advances; indexing past the end of the slice panics. Returns the
    rewritten pieces and the final [idx]. *)
Fixpoint setPathParams (splits params : list string) (idx : nat)
  : result (list string * nat) :=
  match splits with
  | [] => Ret ([], idx)
  | s :: rest =>
      if strings.HasPrefix s pathParamIndicator then
        match params !! idx with
        | None => Panic (IndexOutOfRange idx (length params))
        | Some v =>
            match setPathParams rest params (S idx) with
            | Ret (out, idx') => Ret (v :: out, idx')
            | Fail e => Fail e
            | Panic p => Panic p
            end
        end
      else
        match setPathParams rest params idx with
        | Ret (out, idx') => Ret (s :: out, idx')
        | Fail e => Fail e
        | Panic p => Panic p
        end
  end.

(** [validatePathParams]: the outcome and the builder afterwards. *)
Definition validatePathParams (r : Request) : result unit * Request :=
  if strings.Contains (url r) urlPathParamSeparator then
    let actualPathParamCount := length (pathParams r) in
    if Nat.eqb actualPathParamCount 0 then (Fail errNoPathParamValueSet, r)
    else if negb (Nat.eqb (strings.Count (url r) urlPathParamSeparator)
                          actualPathParamCount)
    then (Fail errPathParamPassedIncorrect, r)
    else
      let splits := strings.Split (url r) urlSeparator in
      match setPathParams splits (pathParams r) 0 with
      | Panic p => (Panic p, r)
      | Fail e => (Fail e, r)
      | Ret (splits', idx) =>
          if negb (Nat.eqb idx (length (pathParams r)))
          then (Fail errPathParamConflift, r)
          else (Ret tt, set_url (strings.Join splits' urlSeparator) r)
      end
  else (Ret tt, r).

(** The number of pieces that start with ':'. *)
Fixpoint placeholders (splits : list string) : nat :=
  match splits with
  | [] => 0
  | s :: rest =>
      if strings.HasPrefix s pathParamIndicator
      then S (placeholders rest)
      else placeholders rest
  end.

(** Positional substitution in the specification's words: every piece
    that starts with ':' is replaced by the next unused value, pieces
    taken left to right. *)
Fixpoint substitute (splits values : list string) : list string :=
  match splits with
  | [] => []
  | s :: rest =>
      if strings.HasPrefix s pathParamIndicator then
        match values with
        | v :: unused => v :: substitute rest unused
        | [] => s :: substitute rest []
        end
      else s :: substitute rest values
  end.

(** [basicAuth]. *)
Definition basicAuth (username password : string) : string :=
  let auth := username +:+ ":" +:+ password in
  base64.EncodeToString auth.

End Builder.


Arguments Request Value : clear implicits.

(** ** The collaborators

    The standard-library calls of [Dispatch] that parse, marshal or touch
    the network. Each is a function of its arguments; what the network
    answers is part of [client_Do]. *)
Record Collaborators (Value : Type) : Type := mkCollaborators {
  (** [json.Marshal] *)
  json_Marshal : Value -> string + LibErr;
  (** [http.NewRequest(method, url, body)] *)
  http_NewRequest : string -> string -> option Reader -> HTTPRequest + LibErr;
  (** [URL.Query]: the values already present in the URL *)
  url_Query : URL -> neturl.Values;
  (** [url.Parse] *)
  url_Parse : string -> URL + LibErr;
  (** [Client.Do]: a response, or an error that may come with a
      response *)
  client_Do : Client -> HTTPRequest -> Response + (option Response * LibErr);
  (** [ioutil.ReadAll] *)
  ioutil_ReadAll : Reader -> string * option LibErr;
  (** [json.NewDecoder(body).Decode(&target)] *)
  json_Decode : Reader -> Value -> option LibErr
}.
Arguments json_Marshal {Value} _ _.
Arguments http_NewRequest {Value} _ _ _ _.
Arguments url_Query {Value} _ _.
Arguments url_Parse {Value} _ _.
Arguments client_Do {Value} _ _ _.
Arguments ioutil_ReadAll {Value} _ _.
Arguments json_Decode {Value} _ _ _.

(** [result] is a monad: errors and panics cut the rest short. *)
#[global] Instance result_ret : MRet result := fun A a => Ret a.

#[global] Instance result_bind : MBind result := fun A B f m =>
  match m with
  | Ret a => f a
  | Fail e => Fail e
  | Panic p => Panic p
  end.

(** [if err != nil { return nil, fmt.Errorf(..., err) }]. *)
Definition wrap {A : Type} (w : wrapper) (x : A + LibErr) : result A :=
  match x with
  | inl a => Ret a
  | inr err => Fail (Errorf w err)
  end.

(** The errors that carry a library failure. *)
Definition wrapped (e : error) : Prop :=
  match e with
  | Errorf _ _ => True
  | _ => False
  end.

(** [if err != nil { return nil, err }]. *)
Definition check (err : option error) : result unit :=
  match err with
  | Some e => Fail e
  | None => Ret tt
  end.

(** The fixed set of methods, in the specification's order. *)
Definition httpMethods : list string :=
  [MethodGet; MethodPost; MethodPut; MethodDelete; MethodHead;
   MethodOptions; MethodConnect; MethodTrace; MethodPatch].

(** The body source in the specification's words: the first one set, in
    the order explicit body, structured object, form values. *)
Inductive bodySource (Value : Type) : Type :=
| ExplicitBody (b : Reader)
| StructuredBody (v : Value)
| FormBody (values : neturl.Values)
| NoBody.
Arguments ExplicitBody {Value} b.
Arguments StructuredBody {Value} v.
Arguments FormBody {Value} values.
Arguments NoBody {Value}.

Definition selectBody {Value : Type} (r : Request Value) : bodySource Value :=
  match body r, bodyStruct r, bodyValues r with
  | Some b, _, _ => ExplicitBody b
  | None, Some v, _ => StructuredBody v
  | None, None, Some values => FormBody values
  | None, None, None => NoBody
  end.

(** The query values that hold the entries of the mapping and nothing
    else. *)
Definition fromMapping (params : gmap string string) : neturl.Values :=
  (fun v => [v]) <$> params.

Section Pipeline.

Context {Value : Type} (L : Collaborators Value).

(** ** The stages of [Dispatch] that only compute *)

(** "prepare the body": the body handed to [http.NewRequest] and the
    content type. *)
Definition prepareBody (r : Request Value) : result (option Reader * string) :=
  match body r with
  | Some b => Ret (Some b, contentType r)
  | None =>
      match bodyStruct r with
      | Some v =>
          bits ← wrap wrapMarshal (json_Marshal L v);
          Ret (Some (Buffer bits), ContentTypeJSON)
      | None =>
          match bodyValues r with
          | Some values =>
              Ret (Some (Buffer (neturl.Encode values)), ContentTypeURLENCODED)
          | None => Ret (None, contentType r)
          end
      end
  end.

(** "Sets the basic auth header". *)
Definition setBasicAuth (r : Request Value) (h : Header) : Header :=
  if negb (String.eqb (username r) "") || negb (String.eqb (password r) "")
  then Header_Add h "Authorization" ("Basic " +:+ basicAuth (username r) (password r))
  else h.

(** "Sets the content type". *)
Definition setContentType (contentType : string) (h : Header) : Header :=
  if negb (String.eqb contentType "")
  then Header_Add h "Content-Type" contentType
  else h.

(** "Sets the header": one [Add] per entry of the map. Go leaves the
    order of a map iteration open; the entries are taken in the order of
    [map_to_list]. *)
Definition setHeaders (r : Request Value) (h : Header) : Header :=
  if decide (0 < size (headers r))
  then foldl (fun acc kv => Header_Add acc (fst kv) (snd kv)) h
             (map_to_list (headers r))
  else h.

(** The loop [for k, v := range r.queryParams { q.Add(k, v) }]. *)
Definition addQueryParams (params : gmap string string) (q : neturl.Values)
  : neturl.Values :=
  map_fold (fun k v acc => neturl.Add acc k v) q params.

(** "Set the query params". *)
Definition setQueryParams (r : Request Value) (req : HTTPRequest) : result HTTPRequest :=
  if decide (0 < size (queryParams r)) then
    let q := addQueryParams (queryParams r) (url_Query L (req_URL req)) in
    let params := neturl.Encode q in
    params ← (if unescapeQueryParams r
              then wrap wrapQueryUnescape (neturl.QueryUnescape params)
              else Ret params);
    Ret (with_RawQuery params req)
  else Ret req.

(** From "prepare the body" to "Set the query params": the request that
    will be sent. *)
Definition assemble (r : Request Value) : result HTTPRequest :=
  '(body, contentType) ← prepareBody r;
  req ← wrap wrapCreateRequest (http_NewRequest L (method r) (url r) body);
  let req := with_Header (setBasicAuth r (req_Header req)) req in
  let req := with_Header (setContentType contentType (req_Header req)) req in
  let req := with_Header (setHeaders r (req_Header req)) req in
  setQueryParams r req.

(** The transport: the default one, or a proxy transport when no client
    was supplied and a proxy URL is set. *)
Definition selectTransport (r : Request Value) : result unit * Request Value :=
  let r := set_transport (Some DefaultTransport) r in
  match httpcli r with
  | None =>
      if negb (String.eqb (proxyURL r) "") then
        match url_Parse L (proxyURL r) with
        | inr err => (Fail (Errorf wrapParseProxy err), r)
        | inl proxy => (Ret tt, set_transport (Some (ProxyTransport proxy)) r)
        end
      else (Ret tt, r)
  | Some _ => (Ret tt, r)
  end.

(** "create the http client if there isn't any passed". *)
Definition selectClient (r : Request Value) : result unit * Request Value :=
  match httpcli r with
  | None =>
      let httpcli0 := {| Transport := transport r; Timeout := defaultTimeout |} in
      let httpcli1 := if (0 <? timeout r)%Z
                      then {| Transport := Transport httpcli0; Timeout := timeout r |}
                      else httpcli0 in
      (Ret tt, set_httpcli (Some httpcli1) r)
  | Some _ => (Ret tt, r)
  end.

(** ** The state a dispatch runs in: the builder and what has been done
    to the outside world so far *)
Record world : Type := mkWorld {
  self : Request Value;
  trace : list event
}.

Definition M (A : Type) : Type := world -> result A * world.

#[local] Instance M_ret : MRet M := fun A a w => (Ret a, w).

#[local] Instance M_bind : MBind M := fun A B f m w =>
  match m w with
  | (Ret a, w') => f a w'
  | (Fail e, w') => (Fail e, w')
  | (Panic p, w') => (Panic p, w')
  end.

Definition get : M (Request Value) := fun w => (Ret (self w), w).
Definition emit (e : event) : M unit :=
  fun w => (Ret tt, {| self := self w; trace := trace w ++ [e] |}).

(** A computation that touches neither the builder nor the world. *)
Definition lift {A : Type} (x : result A) : M A := fun w => (x, w).

(** A method of the builder that touches nothing else. *)
Definition onSelf {A : Type} (f : Request Value -> result A * Request Value) : M A :=
  fun w => (fst (f (self w)), {| self := snd (f (self w)); trace := trace w |}).

(** ** The stages that reach the outside world *)

(** "perform the actual request". *)
Definition send (c : Client) (req : HTTPRequest) : M Response :=
  emit (EvDo c req);;
  match client_Do L c req with
  | inl res => mret res
  | inr (res, err) =>
      match res with
      | Some res' => emit (EvClose (Body res'))
      | None => mret tt
      end;;
      lift (Fail (Errorf wrapDispatching err))
  end.

(** "log the response body to console if verbose". *)
Definition logResponse (res : Response) : M Response :=
  emit (EvReadAll (Body res));;
  match ioutil_ReadAll L (Body res) with
  | (_, Some err) => lift (Fail (Errorf wrapReadingBody err))
  | (resbody, None) =>
      emit (EvLogResponse (StatusCode res) (Status res) resbody);;
      mret (with_Body (Buffer resbody) res)
  end.

(** From the verbose log line to the end of [Dispatch], for the
    assembled request. *)
Definition transmit (req : HTTPRequest) : M Response :=
  r ← get;
  (if verbose r then emit (EvLogDispatch (req_URL req)) else mret tt);;
  res ← match httpcli r with
        | Some c => send c req
        | None => lift (Panic NilDereference)
        end;
  if verbose r then logResponse res else mret res.

(** The body of [Dispatch]; [Fail e] is [return nil, e]. *)
Definition dispatch : M Response :=
  r ← get;
  lift (check (validateMethod r));;
  onSelf validatePathParams;;
  r ← get;
  req ← lift (assemble r);
  onSelf selectTransport;;
  onSelf selectClient;;
  transmit req.

(** [Dispatch], with Go's pair of results. *)
Definition Dispatch : M (option Response * option error) :=
  fun w =>
    match dispatch w with
    | (Ret res, w') => (Ret (Some res, None), w')
    | (Fail e, w') => (Ret (None, Some e), w')
    | (Panic p, w') => (Panic p, w')
    end.

(** [DispatchScan]; the deferred [Close] runs when the function
    returns. *)
Definition DispatchScan (response : option Value) : M unit :=
  match response with
  | None => lift (Fail errorResponseStructIsNil)
  | Some target =>
      '(res, err) ← Dispatch;
      match err with
      | Some e =>
          match res with
          | Some res' => emit (EvClose (Body res'))
          | None => mret tt
          end;;
          lift (Fail e)
      | None =>
          match res with
          | None => lift (Panic NilDereference)
          | Some res' =>
              emit (EvDecode (Body res'));;
              match json_Decode L (Body res') target with
              | Some e =>
                  emit (EvClose (Body res'));;
                  lift (Fail (Errorf (wrapDecode (StatusCode res')) e))
              | None => emit (EvClose (Body res'))
              end
          end
      end
  end.

(** Start a call on a builder with nothing done yet. *)
Definition run {A : Type} (m : M A) (r : Request Value) : result A * world :=
  m {| self := r; trace := [] |}.

End Pipeline.

Arguments world Value : clear implicits.
Arguments M Value A : clear implicits.

(** ** A test double for the collaborators

    In the manner of the package's test server: every request is answered
    with status 200; a POST whose query carries [wrb=true] gets a body.
    A Go value is stood for by its JSON text. *)
Module Sample.

(** The URL up to the first '?', and what follows it. *)
Fixpoint cutQuery (s : string) : string * string :=
  match s with
  | EmptyString => (EmptyString, EmptyString)
  | String c s' =>
      if (c =? "?")%char then (EmptyString, s')
      else let (location, query) := cutQuery s' in (String c location, query)
  end.

(** [url.Parse] on the URLs used here: a URL that starts with ':' has no
    scheme and is refused; otherwise the query is what follows the first
    '?'. *)
Definition parse (rawurl : string) : URL + LibErr :=
  if strings.HasPrefix rawurl ":" then inr "missing protocol scheme"
  else inl {| Location := fst (cutQuery rawurl);
              RawQuery := snd (cutQuery rawurl) |}.

(** [http.NewRequest]: the parsed URL, an empty header, the body. *)
Definition newRequest (method rawurl : string) (body : option Reader)
  : HTTPRequest + LibErr :=
  match parse rawurl with
  | inr err => inr err
  | inl u => inl {| req_Method := method; req_URL := u;
                    req_Header := []; req_Body := body |}
  end.

(** The round trip to the test server; one address is out of reach. *)
Definition testserver (c : Client) (req : HTTPRequest)
  : Response + (option Response * LibErr) :=
  if String.eqb (Location (req_URL req)) "http://down.test/"
  then inr (None, "connection refused")
  else inl {| StatusCode := 200; Status := "200 OK";
              Body := if String.eqb (req_Method req) MethodPost
                         && bool_decide (neturl.ParseQuery (RawQuery (req_URL req))
                                           !! "wrb" = Some ["true"])
                      then Buffer "{name:foo}"
                      else Buffer "" |}.

(** Reading a buffer gives its content; a stream breaks off. *)
Definition readAll (b : Reader) : string * option LibErr :=
  match b with
  | Buffer content => (content, None)
  | Stream _ => ("", Some "unexpected EOF")
  end.

(** Marshalling gives the JSON text of the value; the empty text stands
    for a value that cannot be marshalled. *)
Definition marshal (v : string) : string + LibErr :=
  if String.eqb v "" then inr "unsupported type" else inl v.

(** Decoding fails on an empty body and on a broken stream. *)
Definition decode (b : Reader) (target : string) : option LibErr :=
  match b with
  | Buffer "" => Some "EOF"
  | Buffer _ => None
  | Stream _ => Some "unexpected EOF"
  end.

Definition lib : Collaborators string :=
  {| json_Marshal := marshal;
     http_NewRequest := newRequest;
     url_Query := fun u => neturl.ParseQuery (RawQuery u);
     url_Parse := parse;
     client_Do := testserver;
     ioutil_ReadAll := readAll;
     json_Decode := decode |}.

(** The address of the test server, and builders of the package's
    tests. *)
Definition serv : string := "http://127.0.0.1:8080".

Definition noPathParamValuePassed : Request string :=
  New MethodGet (serv +:+ "/:user").

Definition pathParamValueMissing : Request string :=
  PathParams ["bar"] (New MethodGet (serv +:+ "/:team/users/:user")).

Definition validPathParamMultiple : Request string :=
  PathParams ["bar"; "ghazni"] (New MethodGet (serv +:+ "/:team/users/:user")).

Definition withQueryParams : Request string :=
  QueryParam "type" "alpha" (QueryParam "name" "gamma"
    (PathParams ["foo"] (New MethodPost (serv +:+ "/users/:user")))).

Definition withBodyStruct : Request string :=
  BodyStruct (Some "{name:foo,city:bar}") (New MethodPost (serv +:+ "/users")).

Definition withBodyValues : Request string :=
  BodyValues (Some {["username" := ["john"]]}) (New MethodPost (serv +:+ "/users")).

Definition dispatchScan : Request string :=
  QueryParam "wrb" "true" (New MethodPost (serv +:+ "/users")).

Definition basicAuthHeaders : Request string :=
  BasicAuth "foo" "foopazz"
    (HeaderSet "Authorization" "ksjhf23j1lkj23" (New MethodPost (serv +:+ "/users"))).

(** What a dispatch of the builder does to the outside world. *)
Definition sent (r : Request string) : list event :=
  trace (snd (run (Dispatch lib) r)).

(** The client that [Dispatch] builds by default, and the answer of the
    test server. *)
Definition defaultClient : Client :=
  {| Transport := Some DefaultTransport; Timeout := defaultTimeout |}.

Definition ok (content : string) : Response :=
  {| StatusCode := 200; Status := "200 OK"; Body := Buffer content |}.

(** A URL that already carries a query, and one query parameter. *)
Definition existingQuery : Request string :=
  QueryParam "a" "b" (New MethodGet "http://h.test/users?x=1").

(** A query parameter that needs escaping, to be unescaped again. *)
Definition unescaped : Request string :=
  UnescapeQueryParams true
    (QueryParam "q" "a b&c" (New MethodPost "http://h.test/users?wrb=true")).

(** A URL whose first piece is itself a placeholder. *)
Definition leadingPlaceholder : Request string :=
  PathParams ["x"] (New MethodGet ":a/:b").

(** A server whose response body is a stream that breaks off when it is
    read, and the collaborators with that server. *)
Definition brokenStream (c : Client) (req : HTTPRequest)
  : Response + (option Response * LibErr) :=
  inl {| StatusCode := 200; Status := "200 OK"; Body := Stream 1 |}.

Definition libBrokenStream : Collaborators string :=
  {| json_Marshal := marshal;
     http_NewRequest := newRequest;
     url_Query := fun u => neturl.ParseQuery (RawQuery u);
     url_Parse := parse;
     client_Do := brokenStream;
     ioutil_ReadAll := readAll;
     json_Decode := decode |}.

(** [http.NewRequest] that also refuses a URL with a control character,
    and the collaborators with it. *)
Fixpoint hasControl (s : string) : bool :=
  match s with
  | EmptyString => false
  | String c s' => (N_of_ascii c <? 32)%N || hasControl s'
  end.

Definition strictNewRequest (method rawurl : string) (body : option Reader)
  : HTTPRequest + LibErr :=
  if hasControl rawurl then inr "invalid control character in URL"
  else newRequest method rawurl body.

Definition libStrict : Collaborators string :=
  {| json_Marshal := marshal;
     http_NewRequest := strictNewRequest;
     url_Query := fun u => neturl.ParseQuery (RawQuery u);
     url_Parse := parse;
     client_Do := testserver;
     ioutil_ReadAll := readAll;
     json_Decode := decode |}.

(** A path-parameter value with a line feed in it. *)
Definition lineFeed : Request string :=
  PathParams [String "010" "x"] (New MethodGet (serv +:+ "/users/:name")).

(** A server that fails after the response has arrived, as a redirect
    policy does. *)
Definition failedRedirect (c : Client) (req : HTTPRequest)
  : Response + (option Response * LibErr) :=
  inr (Some {| StatusCode := 302; Status := "302 Found"; Body := Stream 2 |},
       "stopped after 10 redirects").

Definition libFailedRedirect : Collaborators string :=
  {| json_Marshal := marshal;
     http_NewRequest := newRequest;
     url_Query := fun u => neturl.ParseQuery (RawQuery u);
     url_Parse := parse;
     client_Do := failedRedirect;
     ioutil_ReadAll := readAll;
     json_Decode := decode |}.

End Sample.


(** ** Notions used to state further properties *)


Definition is_Close (e : event) : bool :=
  match e with
  | EvClose _ => true
  | _ => false
  end.

(** A path-parameter value that brings no placeholder into the URL: it
    neither starts with ':' nor contains "/:". *)
Definition inert (v : string) : bool :=
  negb (strings.HasPrefix v ":") && negb (strings.Contains v "/:").

(** A text without '/'. *)
Definition noSlash (v : string) : bool := negb (strings.Contains v "/").

(** The characters of the standard base64 alphabet, and the padding. *)
Definition base64Char (c : ascii) : bool :=
  strings.Contains base64.encodeStd (String c EmptyString) || (c =? "=")%char.

(** Two builders that agree on every field except [url], [transport] and
    [httpcli]. *)
Definition sameConfiguration {Value : Type} (r r' : Request Value) : Prop :=
  method r' = method r
  /\ headers r' = headers r
  /\ pathParams r' = pathParams r
  /\ queryParams r' = queryParams r
  /\ unescapeQueryParams r' = unescapeQueryParams r
  /\ proxyURL r' = proxyURL r
  /\ timeout r' = timeout r
  /\ contentType r' = contentType r
  /\ verbose r' = verbose r
  /\ username r' = username r
  /\ password r' = password r
  /\ body r' = body r
  /\ bodyStruct r' = bodyStruct r
  /\ bodyValues r' = bodyValues r.

(** The query text without any escaping: "key=value" pairs, keys in
    sorted order, joined by '&'. *)
Definition plainPairs (key : string) (vs : list string) : list string :=
  map (fun v => key +:+ "=" +:+ v) vs.

Definition plainQuery (v : neturl.Values) : string :=
  let keys := merge_sort neturl.string_le (map fst (map_to_list v)) in
  String.concat "&" (flat_map (fun k => plainPairs k (default [] (v !! k))) keys).

(** The errors that [Dispatch] returns before anything has reached the
    outside world, and those it returns after the round trip. *)
Definition preflight (e : error) : Prop :=
  e = EmptyMethod \/ e = UnknownMethod
  \/ e = NoPathParamValue \/ e = PathParamCountMismatch
  \/ exists err, e = SerializationFailed err
                 \/ e = RequestConstructionFailed err
                 \/ e = ProxyParseFailed err.

Definition inflight (e : error) : Prop :=
  exists err, e = DispatchFailed err \/ e = ResponseReadFailed err.

(** * Properties *)

(** ** Pieces and placeholders *)

Section PathFacts.

Lemma prefix_cons (a b : ascii) (s1 s2 : string) :
  String.prefix (String a s1) (String b s2) = (a =? b)%char && String.prefix s1 s2.
Proof.
  change (String.prefix (String a s1) (String b s2))
    with (match ascii_dec a b with
          | left _ => String.prefix s1 s2
          | right _ => false
          end).
  destruct (ascii_dec a b) as [-> | Hne].
  - rewrite Ascii.eqb_refl. reflexivity.
  - apply Ascii.eqb_neq in Hne. rewrite Hne. reflexivity.
Qed.

Lemma prefix_nil (s : string) : String.prefix "" s = true.
Proof. destruct s; reflexivity. Qed.

Lemma HasPrefix_colon (c : ascii) (s : string) :
  strings.HasPrefix (String c s) ":" = (c =? ":")%char.
Proof.
  unfold strings.HasPrefix. rewrite prefix_cons, prefix_nil, andb_true_r.
  apply Ascii.eqb_sym.
Qed.

Lemma Split_cons (c : ascii) (s : string) :
  strings.Split (String c s) "/" =
  if (c =? "/")%char then "" :: strings.Split s "/"
  else strings.cons_head c (strings.Split s "/").
Proof.
  unfold strings.Split.
  change (strings.split_from "/" (String c s) 0)
    with (if String.prefix "/" (String c s)
          then "" :: strings.split_from "/" s 0
          else strings.cons_head c (strings.split_from "/" s 0)).
  rewrite prefix_cons, prefix_nil, andb_true_r, Ascii.eqb_sym. reflexivity.
Qed.

Lemma Count_cons (c : ascii) (s : string) :
  strings.Count (String c s) "/:" =
  if (c =? "/")%char && strings.HasPrefix s ":"
  then S (strings.Count (match s with String _ t => t | EmptyString => "" end) "/:")
  else strings.Count s "/:".
Proof.
  unfold strings.Count, strings.HasPrefix.
  change (strings.count_from "/:" (String c s) 0)
    with (if String.prefix "/:" (String c s)
          then S (strings.count_from "/:" s 1)
          else strings.count_from "/:" s 0).
  rewrite prefix_cons, (Ascii.eqb_sym "/" c).
  destruct (c =? "/")%char; [|reflexivity].
  destruct s as [|d t]; [reflexivity|].
  rewrite andb_true_l. destruct (String.prefix ":" (String d t)); reflexivity.
Qed.

Lemma Count_colon (s : string) :
  strings.Count (String ":" s) "/:" = strings.Count s "/:".
Proof. rewrite Count_cons. reflexivity. Qed.

Lemma Split_nonempty (s : string) : strings.Split s "/" <> [].
Proof.
  induction s as [|c s IH]; [discriminate|].
  rewrite Split_cons. destruct (c =? "/")%char; [discriminate|].
  destruct (strings.Split s "/"); [contradiction | discriminate].
Qed.

(** The first piece starts with ':' exactly when the string does. *)
Lemma Split_head (s : string) :
  match strings.Split s "/" with
  | [] => False
  | seg :: _ => strings.HasPrefix seg ":" = strings.HasPrefix s ":"
  end.
Proof.
  destruct s as [|c s]; [reflexivity|].
  rewrite Split_cons. destruct (c =? "/")%char eqn:Hc.
  - apply Ascii.eqb_eq in Hc. subst c. reflexivity.
  - pose proof (Split_nonempty s) as Hne.
    destruct (strings.Split s "/") as [|seg rest]; [contradiction|].
    cbn [strings.cons_head]. rewrite !HasPrefix_colon. reflexivity.
Qed.

(** Every "/:" opens a piece that starts with ':'; the only other such
    piece is the first one, when the string itself starts with ':'. *)
Lemma placeholders_Split (s : string) :
  placeholders (strings.Split s "/") =
  strings.Count s "/:" + (if strings.HasPrefix s ":" then 1 else 0).
Proof.
  induction s as [|c s IH]; [reflexivity|].
  rewrite Split_cons, Count_cons, HasPrefix_colon.
  destruct (c =? "/")%char eqn:Hc.
  - apply Ascii.eqb_eq in Hc. subst c.
    cbn [placeholders andb]. unfold pathParamIndicator.
    change (strings.HasPrefix "" ":") with false.
    change ("/" =? ":")%char with false. cbv iota. rewrite IH.
    destruct s as [|d t]; [reflexivity|].
    rewrite HasPrefix_colon. destruct (d =? ":")%char eqn:Hd.
    + apply Ascii.eqb_eq in Hd. subst d. rewrite Count_colon. lia.
    + lia.
  - cbn [andb]. pose proof (Split_head s) as Hh.
    destruct (strings.Split s "/") as [|seg rest]; [contradiction|].
    cbn [strings.cons_head placeholders] in *.
    unfold pathParamIndicator in *. rewrite HasPrefix_colon. rewrite Hh in IH.
    destruct (c =? ":")%char, (strings.HasPrefix s ":"); lia.
Qed.

(** Joining the pieces with the separator gives the string back. *)
Lemma Join_Split (s : string) : strings.Join (strings.Split s "/") "/" = s.
Proof.
  unfold strings.Join. induction s as [|c s IH]; [reflexivity|].
  rewrite Split_cons. pose proof (Split_nonempty s) as Hne.
  destruct (strings.Split s "/") as [|seg rest]; [contradiction|].
  destruct (c =? "/")%char eqn:Hc.
  - apply Ascii.eqb_eq in Hc. subst c.
    change (String.concat "/" ("" :: seg :: rest))
      with ("/" +:+ String.concat "/" (seg :: rest)).
    rewrite IH. reflexivity.
  - cbn [strings.cons_head].
    destruct rest as [|seg' rest].
    + cbn in *. by rewrite IH.
    + change (String.concat "/" (String c seg :: seg' :: rest))
        with (String c (String.concat "/" (seg :: seg' :: rest))).
      by rewrite IH.
Qed.

(** [Split] returns one piece more than [Count] counts separators. *)
Lemma length_split_from (sep s : string) (skip : nat) :
  length (strings.split_from sep s skip) = S (strings.count_from sep s skip).
Proof.
  revert skip. induction s as [|c s IH]; intros skip; [reflexivity|].
  cbn [strings.split_from strings.count_from].
  destruct skip as [|k]; [|apply IH].
  destruct (String.prefix sep (String c s)).
  - cbn [length]. by rewrite IH.
  - specialize (IH 0). destruct (strings.split_from sep s 0); [discriminate IH|].
    exact IH.
Qed.

Lemma length_Split (s sep : string) :
  length (strings.Split s sep) = S (strings.Count s sep).
Proof. apply length_split_from. Qed.

(** A string that contains "/:" counts at least one. *)
Lemma Contains_Count_pos (s : string) :
  strings.Contains s "/:" = true -> 0 < strings.Count s "/:".
Proof.
  induction s as [|c s IH]; [discriminate|].
  rewrite Count_cons. cbn [strings.Contains]. unfold strings.HasPrefix.
  rewrite prefix_cons, (Ascii.eqb_sym "/" c).
  destruct ((c =? "/")%char && String.prefix ":" s); [lia|].
  exact IH.
Qed.

End PathFacts.

(** ** Path-parameter validation *)

Section PathValidation.

Context {Value : Type}.
Implicit Types (r : Request Value) (splits params : list string).

(** With enough values the loop does not panic: it performs the
    positional substitution and advances [idx] once per placeholder. *)
Lemma setPathParams_ok splits params (idx : nat) :
  idx + placeholders splits <= length params ->
  setPathParams splits params idx =
  Ret (substitute splits (drop idx params), idx + placeholders splits).
Proof.
  revert idx. induction splits as [|s rest IH]; intros idx Hle.
  - cbn. by rewrite Nat.add_0_r.
  - cbn [setPathParams placeholders substitute] in *.
    destruct (strings.HasPrefix s pathParamIndicator).
    + destruct (lookup_lt_is_Some_2 params idx) as [v Hv]; [lia|].
      rewrite Hv, (IH (S idx)) by lia.
      rewrite (drop_S _ _ _ Hv). do 2 f_equal. lia.
    + rewrite (IH idx) by lia. reflexivity.
Qed.

(** With too few values the loop indexes the slice at its length. *)
Lemma setPathParams_panics splits params (idx : nat) :
  idx <= length params ->
  length params < idx + placeholders splits ->
  setPathParams splits params idx =
  Panic (IndexOutOfRange (length params) (length params)).
Proof.
  revert idx. induction splits as [|s rest IH]; intros idx Hle Hlt.
  - cbn in Hlt. lia.
  - cbn [setPathParams placeholders] in *.
    destruct (strings.HasPrefix s pathParamIndicator).
    + destruct (decide (idx = length params)) as [-> | Hne].
      * rewrite (lookup_ge_None_2 params (length params)) by lia. reflexivity.
      * destruct (lookup_lt_is_Some_2 params idx) as [v Hv]; [lia|].
        rewrite Hv, (IH (S idx)) by lia. reflexivity.
    + rewrite (IH idx) by lia. reflexivity.
Qed.

(** What [validatePathParams] does, case by case. *)
Lemma validatePathParams_cases r :
  validatePathParams r =
  if strings.Contains (url r) "/:" then
    if decide (length (pathParams r) = 0) then (Fail NoPathParamValue, r)
    else if decide (strings.Count (url r) "/:" <> length (pathParams r))
    then (Fail PathParamCountMismatch, r)
    else if strings.HasPrefix (url r) ":"
    then (Panic (IndexOutOfRange (length (pathParams r)) (length (pathParams r))), r)
    else (Ret tt,
          set_url (strings.Join (substitute (strings.Split (url r) "/") (pathParams r)) "/") r)
  else (Ret tt, r).
Proof.
  unfold validatePathParams, urlPathParamSeparator, urlSeparator.
  destruct (strings.Contains (url r) "/:"); [|reflexivity].
  destruct (decide (length (pathParams r) = 0)) as [-> | Hn0]; [reflexivity|].
  replace (Nat.eqb (length (pathParams r)) 0) with false
    by (symmetry; by apply Nat.eqb_neq).
  destruct (decide (strings.Count (url r) "/:" <> length (pathParams r)))
    as [Hne | Heq].
  - apply Nat.eqb_neq in Hne. rewrite Hne. reflexivity.
  - apply dec_stable in Heq. rewrite Heq, Nat.eqb_refl. cbn [negb].
    pose proof (placeholders_Split (url r)) as Hp.
    destruct (strings.HasPrefix (url r) ":").
    + rewrite setPathParams_panics by lia. reflexivity.
    + rewrite setPathParams_ok by lia.
      rewrite Hp, Heq, Nat.add_0_r, Nat.add_0_l, Nat.eqb_refl. reflexivity.
Qed.

(** The consistency check after the loop never fires. *)
Lemma validatePathParams_no_conflict r :
  fst (validatePathParams r) <> Fail PathParamConflict.
Proof.
  rewrite validatePathParams_cases.
  repeat (case_match; try discriminate).
Qed.

(** A URL that does not itself start with ':' and holds as many "/:" as
    there are values is rewritten by positional substitution. *)
Lemma validatePathParams_substitutes r :
  strings.Contains (url r) "/:" = true ->
  strings.HasPrefix (url r) ":" = false ->
  strings.Count (url r) "/:" = length (pathParams r) ->
  validatePathParams r =
  (Ret tt,
   set_url (strings.Join (substitute (strings.Split (url r) "/") (pathParams r)) "/") r)
  /\ placeholders (strings.Split (url r) "/") = length (pathParams r).
Proof.
  intros Hc Hp Hn. rewrite validatePathParams_cases, Hc, Hp.
  pose proof (placeholders_Split (url r)) as Hs. rewrite Hp in Hs.
  pose proof (Contains_Count_pos _ Hc) as Hpos.
  split; [|lia].
  destruct (decide (length (pathParams r) = 0)); [lia|].
  destruct (decide (strings.Count (url r) "/:" <> length (pathParams r)));
    [contradiction|reflexivity].
Qed.

End PathValidation.

(** ** The shape of a dispatch *)

Section DispatchFacts.

Context {Value : Type} (L : Collaborators Value).
Implicit Types (r : Request Value) (w : world Value).

(** [Dispatch] stage by stage: the first stage that does not return
    normally ends the call, and nothing has reached the outside world
    before [transmit]. *)
Lemma dispatch_run r :
  run (dispatch L) r =
  match validateMethod r with
  | Some e => (Fail e, mkWorld r [])
  | None =>
      match validatePathParams r with
      | (Fail e, r1) => (Fail e, mkWorld r1 [])
      | (Panic p, r1) => (Panic p, mkWorld r1 [])
      | (Ret _, r1) =>
          match assemble L r1 with
          | Fail e => (Fail e, mkWorld r1 [])
          | Panic p => (Panic p, mkWorld r1 [])
          | Ret req =>
              match selectTransport L r1 with
              | (Fail e, r2) => (Fail e, mkWorld r2 [])
              | (Panic p, r2) => (Panic p, mkWorld r2 [])
              | (Ret _, r2) =>
                  transmit L req (mkWorld (snd (selectClient r2)) [])
              end
          end
      end
  end.
Proof.
  unfold run, dispatch, mbind, M_bind, get, lift, onSelf, check. cbn.
  destruct (validateMethod r); [reflexivity|].
  destruct (validatePathParams r) as [[[]|e|p] r1]; cbn; try reflexivity.
  destruct (assemble L r1) as [req|e|p]; cbn; try reflexivity.
  destruct (selectTransport L r1) as [[[]|e|p] r2]; cbn; try reflexivity.
  unfold selectClient. destruct (httpcli r2); reflexivity.
Qed.

(** [Dispatch] repackages the outcome of its body. *)
Lemma Dispatch_run r :
  run (Dispatch L) r =
  (match fst (run (dispatch L) r) with
   | Ret res => Ret (Some res, None)
   | Fail e => Ret (None, Some e)
   | Panic p => Panic p
   end, snd (run (dispatch L) r)).
Proof.
  unfold run, Dispatch.
  destruct (dispatch L _) as [[res|e|p] w']; reflexivity.
Qed.

Lemma wrap_Fail {A : Type} (k : wrapper) (x : A + LibErr) (e : error) :
  wrap k x = Fail e -> exists err, x = inr err /\ e = Errorf k err.
Proof. destruct x as [a|err]; cbn; intros H; inversion H; eauto. Qed.

Lemma prepareBody_Fail r e :
  prepareBody L r = Fail e ->
  exists v err, body r = None /\ bodyStruct r = Some v
                /\ json_Marshal L v = inr err /\ e = SerializationFailed err.
Proof.
  unfold prepareBody, mbind, result_bind, wrap.
  destruct (body r); [discriminate|].
  destruct (bodyStruct r) as [v|].
  - destruct (json_Marshal L v) as [bits|err] eqn:Hm; [discriminate|].
    intros H; inversion H. eauto 6.
  - destruct (bodyValues r); discriminate.
Qed.

Lemma prepareBody_no_Panic r p : prepareBody L r <> Panic p.
Proof.
  unfold prepareBody, mbind, result_bind, wrap.
  repeat case_match; discriminate.
Qed.

Lemma setQueryParams_Fail r req e :
  setQueryParams L r req = Fail e ->
  exists err, e = QueryUnescapeFailed err.
Proof.
  unfold setQueryParams, mbind, result_bind, wrap.
  repeat case_match; intros Hf; simplify_eq; eauto.
Qed.

Lemma assemble_Fail r e : assemble L r = Fail e -> wrapped e.
Proof.
  unfold assemble, mbind, result_bind.
  destruct (prepareBody L r) as [[b ct]|e'|p] eqn:Hb.
  - destruct (wrap _ _) as [req|e'|p] eqn:Hw.
    + intros H. apply setQueryParams_Fail in H as [err ->]. exact I.
    + intros H. inversion H; subst. apply wrap_Fail in Hw as (err & _ & ->). exact I.
    + discriminate.
  - intros H. inversion H; subst.
    apply prepareBody_Fail in Hb as (v & err & _ & _ & _ & ->). exact I.
  - discriminate.
Qed.

Lemma selectTransport_Fail r e :
  fst (selectTransport L r) = Fail e ->
  exists err, httpcli r = None /\ proxyURL r <> ""
              /\ url_Parse L (proxyURL r) = inr err /\ e = ProxyParseFailed err.
Proof.
  unfold selectTransport. cbn.
  destruct (httpcli r); [discriminate|].
  destruct (String.eqb (proxyURL r) "") eqn:Hp; [discriminate|]. cbn.
  destruct (url_Parse L (proxyURL r)) as [u|err] eqn:Hu; [discriminate|].
  cbn. intros H; inversion H. apply String.eqb_neq in Hp. eauto 6.
Qed.

(** The events of [transmit], and how it can end. *)
Lemma transmit_run req r :
  exists tr res,
    transmit L req (mkWorld r []) = (res, mkWorld r tr)
    /\ (forall e, res = Fail e -> wrapped e)
    /\ (forall c' req', In (EvDo c' req') tr -> httpcli r = Some c' /\ req' = req)
    /\ (forall c, httpcli r = Some c -> In (EvDo c req) tr).
Proof.
  unfold transmit, send, logResponse, mbind, M_bind, mret, M_ret, get, emit, lift.
  cbn.
  destruct (verbose r); cbn;
    (destruct (httpcli r) as [c|]; cbn;
     [ destruct (client_Do L c req) as [res|[[res'|] err]]; cbn;
       try destruct (ioutil_ReadAll L (Body res)) as [resbody [err|]]; cbn
     | ]);
    eexists _, _; (split; [reflexivity|]);
    (split; [intros e H; inversion H; exact I|]);
    (split; [|intros c0 H; inversion H; subst; cbn; tauto]);
    intros c' req' Hin; cbn in Hin;
    repeat (destruct Hin as [Hin|Hin]; [inversion Hin; subst; tauto|]);
    contradiction.
Qed.

End DispatchFacts.

(** ** Method validation *)

Section MethodValidation.

Context {Value : Type} (L : Collaborators Value).
Implicit Types (r : Request Value).

Lemma validateMethod_cases r :
  validateMethod r =
  if decide (method r = "") then Some EmptyMethod
  else if decide (method r ∈ httpMethods) then None
  else Some UnknownMethod.
Proof.
  unfold validateMethod.
  destruct (decide (method r = "")) as [-> | Hne]; [reflexivity|].
  apply String.eqb_neq in Hne. rewrite Hne.
  destruct (decide (method r ∈ httpMethods)) as [Hin | Hnin].
  - unfold httpMethods in Hin. rewrite !elem_of_cons, elem_of_nil in Hin.
    destruct Hin as [->|[->|[->|[->|[->|[->|[->|[->|[->|[]]]]]]]]]];
      reflexivity.
  - unfold httpMethods in Hnin. rewrite !elem_of_cons, elem_of_nil in Hnin.
    repeat match goal with
           | |- context [String.eqb (method r) ?m] =>
               replace (String.eqb (method r) m) with false
                 by (symmetry; apply String.eqb_neq; tauto)
           end.
    reflexivity.
Qed.

(** Past method validation, [Dispatch] fails with one of the two count
    errors of path validation or with a wrapped library error. *)
Lemma dispatch_late_failure r e :
  validateMethod r = None ->
  fst (run (dispatch L) r) = Fail e ->
  e = NoPathParamValue \/ e = PathParamCountMismatch \/ wrapped e.
Proof.
  intros Hm. rewrite dispatch_run, Hm.
  pose proof (validatePathParams_cases r) as Hp.
  destruct (validatePathParams r) as [[[]|e'|p] r1].
  - destruct (assemble L r1) as [req|e'|p] eqn:Ha; cbn.
    + destruct (selectTransport L r1) as [[[]|e'|p] r2] eqn:Ht; cbn.
      * destruct (transmit_run L req (snd (selectClient r2)))
          as (tr & res & -> & Hw & _). cbn. intros ->. right; right. by apply Hw.
      * intros H; inversion H; subst.
        destruct (selectTransport_Fail L r1 e) as (err & _ & _ & _ & ->);
          [by rewrite Ht|]. right; right. exact I.
      * discriminate.
    + intros H; inversion H; subst. right; right. by eapply assemble_Fail.
    + discriminate.
  - cbn. intros H; inversion H; subst.
    repeat case_match; simplify_eq; auto.
  - discriminate.
Qed.

(** A failure of method validation ends the call before anything
    else happens. *)
Lemma Dispatch_method_failure r e :
  validateMethod r = Some e ->
  run (Dispatch L) r = (Ret (None, Some e), mkWorld r []).
Proof. intros Hm. rewrite Dispatch_run, dispatch_run, Hm. reflexivity. Qed.

(** The two method errors come from method validation only. *)
Lemma Dispatch_method_error r e :
  e = EmptyMethod \/ e = UnknownMethod ->
  fst (run (Dispatch L) r) = Ret (None, Some e) <-> validateMethod r = Some e.
Proof.
  intros He. split.
  - destruct (validateMethod r) as [e'|] eqn:Hm.
    + rewrite (Dispatch_method_failure _ _ Hm). cbn. congruence.
    + rewrite Dispatch_run. cbn [fst].
      destruct (fst (run (dispatch L) r)) as [res|e'|p] eqn:Hf; try discriminate.
      intros H; inversion H; subst e'.
      destruct (dispatch_late_failure r e Hm Hf) as [->|[->|Hw]];
        destruct He as [He|He]; try discriminate He.
      all: subst e; contradiction.
  - intros Hm. rewrite (Dispatch_method_failure _ _ Hm). reflexivity.
Qed.

End MethodValidation.

(** C3: [Dispatch] returns EmptyMethod exactly when the method is the
    empty string and UnknownMethod exactly when it is non-empty and
    outside the nine method names; in both cases the call ends with the
    builder untouched and nothing done to the outside world, whatever the
    collaborators would have answered; a method of the set passes
    [validateMethod]. *)
Theorem C3_method_validation {Value : Type} (L : Collaborators Value)
    (r : Request Value) :
  (fst (run (Dispatch L) r) = Ret (None, Some EmptyMethod) <-> method r = "")
  /\ (fst (run (Dispatch L) r) = Ret (None, Some UnknownMethod)
      <-> method r <> "" /\ method r ∉ httpMethods)
  /\ (method r = "" \/ method r ∉ httpMethods ->
      snd (run (Dispatch L) r) = mkWorld r []
      /\ forall L' : Collaborators Value, run (Dispatch L') r = run (Dispatch L) r)
  /\ (method r ∈ httpMethods -> validateMethod r = None).
Proof.
  pose proof (validateMethod_cases r) as Hv.
  assert ("" ∉ httpMethods) as Hempty.
  { unfold httpMethods. rewrite !elem_of_cons, elem_of_nil.
    intros H; repeat destruct H as [H|H]; try discriminate H; exact H. }
  split; [|split; [|split]].
  - rewrite (Dispatch_method_error L r EmptyMethod) by auto. rewrite Hv.
    unfold EmptyMethod, UnknownMethod.
    repeat case_decide; split; intros; try congruence; try contradiction.
  - rewrite (Dispatch_method_error L r UnknownMethod) by auto. rewrite Hv.
    unfold EmptyMethod, UnknownMethod.
    repeat case_decide; split; intros H'; try discriminate H'; try tauto.
  - intros Hbad.
    assert (exists e, validateMethod r = Some e) as [e He].
    { rewrite Hv. repeat case_decide; eauto.
      destruct Hbad as [Hb|Hb]; contradiction. }
    rewrite (Dispatch_method_failure L r e He). split; [reflexivity|].
    intros L'. apply Dispatch_method_failure. exact He.
  - intros Hin. rewrite Hv.
    rewrite decide_False, decide_True; congruence.
Qed.

(** ** Path validation inside [Dispatch] *)

Section PathDispatch.

Context {Value : Type} (L : Collaborators Value).
Implicit Types (r : Request Value).

(** An error of path validation ends the call before anything reaches
    the outside world. *)
Lemma Dispatch_path_failure r e :
  validateMethod r = None ->
  fst (validatePathParams r) = Fail e ->
  run (Dispatch L) r = (Ret (None, Some e), mkWorld r []).
Proof.
  intros Hm Hp. rewrite Dispatch_run, dispatch_run, Hm.
  assert (snd (validatePathParams r) = r) as Hr.
  { rewrite validatePathParams_cases in *. repeat case_match; try reflexivity.
    discriminate Hp. }
  destruct (validatePathParams r) as [[[]|e'|p] r1]; cbn in *; try discriminate.
  by simplify_eq.
Qed.

(** A panic of path validation is the outcome of the call. *)
Lemma Dispatch_path_panic r p :
  validateMethod r = None ->
  fst (validatePathParams r) = Panic p ->
  run (Dispatch L) r = (Panic p, mkWorld r []).
Proof.
  intros Hm Hp. rewrite Dispatch_run, dispatch_run, Hm.
  assert (snd (validatePathParams r) = r) as Hr.
  { rewrite validatePathParams_cases in *. repeat case_match; try reflexivity.
    discriminate Hp. }
  destruct (validatePathParams r) as [[[]|e'|p'] r1]; cbn in *; try discriminate.
  by simplify_eq.
Qed.

(** The outcomes of path validation for a URL that contains "/:" and
    does not start with ':': no value, a wrong number of values, the
    right number of values. *)
Lemma path_validation_outcomes r :
  validateMethod r = None ->
  strings.Contains (url r) "/:" = true ->
  (length (pathParams r) = 0 ->
   run (Dispatch L) r = (Ret (None, Some NoPathParamValue), mkWorld r []))
  /\ (0 < length (pathParams r) ->
      length (pathParams r) <> strings.Count (url r) "/:" ->
      run (Dispatch L) r = (Ret (None, Some PathParamCountMismatch), mkWorld r []))
  /\ (length (pathParams r) = strings.Count (url r) "/:" ->
      strings.HasPrefix (url r) ":" = false ->
      validatePathParams r =
      (Ret tt,
       set_url (strings.Join (substitute (strings.Split (url r) "/") (pathParams r)) "/") r)).
Proof.
  intros Hm Hc. repeat split.
  - intros H0. apply Dispatch_path_failure; [done|].
    rewrite validatePathParams_cases, Hc. by rewrite decide_True.
  - intros Hpos Hne. apply Dispatch_path_failure; [done|].
    rewrite validatePathParams_cases, Hc.
    rewrite decide_False by lia. by rewrite decide_True by congruence.
  - intros Heq Hp. by apply validatePathParams_substitutes.
Qed.

(** A URL that starts with ':' and passes both count checks makes the
    loop index the values at their length. *)
Lemma leading_placeholder_panics r :
  strings.Contains (url r) "/:" = true ->
  strings.HasPrefix (url r) ":" = true ->
  strings.Count (url r) "/:" = length (pathParams r) ->
  validatePathParams r =
  (Panic (IndexOutOfRange (length (pathParams r)) (length (pathParams r))), r)
  /\ placeholders (strings.Split (url r) "/") = S (length (pathParams r)).
Proof.
  intros Hc Hp Hn. pose proof (Contains_Count_pos _ Hc) as Hpos.
  split.
  - rewrite validatePathParams_cases, Hc, Hp.
    rewrite decide_False by lia. by rewrite decide_False by (intros ?; congruence).
  - rewrite placeholders_Split, Hp. lia.
Qed.

End PathDispatch.

(** C10: for a URL that does not contain "/:", path validation returns
    no error and leaves every field of the builder as it was, whatever
    the path-parameter values are. *)
Theorem C10_no_placeholder_noop {Value : Type} (r : Request Value) :
  strings.Contains (url r) urlPathParamSeparator = false ->
  validatePathParams r = (Ret tt, r).
Proof.
  intros Hc. unfold validatePathParams. rewrite Hc. reflexivity.
Qed.

Lemma C10_no_placeholder_noop_witness :
  let r : Request string := PathParams ["x"; "y"] (New MethodPost "/users") in
  strings.Contains (url r) urlPathParamSeparator = false
  /\ validatePathParams r = (Ret tt, r).
Proof.
  split; [reflexivity|]. apply C10_no_placeholder_noop. reflexivity.
Defined.

(** C1, at a URL whose first piece is itself a placeholder: ":a/:b"
    contains "/:" once; with the one value that both count checks ask for,
    [Dispatch] panics in the substitution loop instead of succeeding, and
    with two values, one per piece that starts with ':', it fails with
    PathParamCountMismatch. *)
Theorem C1_leading_placeholder_dispatch :
  let r := Sample.leadingPlaceholder in
  strings.Contains (url r) "/:" = true
  /\ strings.Count (url r) "/:" = 1
  /\ placeholders (strings.Split (url r) "/") = 2
  /\ run (Dispatch Sample.lib) r = (Panic (IndexOutOfRange 1 1), mkWorld r [])
  /\ run (Dispatch Sample.lib) (PathParams ["x"; "y"] r)
     = (Ret (None, Some PathParamCountMismatch), mkWorld (PathParams ["x"; "y"] r) []).
Proof.
  cbv zeta. repeat split; reflexivity.
Qed.

(** C4, at the URL ":team/users/:user" with the single value "bar": both
    count checks pass, and path validation neither consumes its values
    nor fails with PathParamConflict; it panics. *)
Theorem C4_leading_placeholder_outcome :
  let r : Request string := PathParams ["bar"] (New MethodGet ":team/users/:user") in
  strings.Contains (url r) "/:" = true
  /\ strings.Count (url r) "/:" = length (pathParams r)
  /\ validatePathParams r = (Panic (IndexOutOfRange 1 1), r).
Proof. cbv zeta. repeat split; reflexivity. Qed.

(** C5, at the URL ":a/:b" with one value: the pieces that start with ':'
    are two while "/:" occurs once, and the loop reads the values at
    index 1, which is their length. *)
Theorem C5_leading_placeholder_index :
  strings.Split ":a/:b" "/" = [":a"; ":b"]
  /\ placeholders (strings.Split ":a/:b" "/") = 2
  /\ strings.Count ":a/:b" "/:" = 1
  /\ ["x"] !! 1 = (None : option string)
  /\ setPathParams (strings.Split ":a/:b" "/") ["x"] 0 = Panic (IndexOutOfRange 1 1).
Proof. repeat split; reflexivity. Qed.

(** ** The request that is sent *)

Section Assembly.

Context {Value : Type} (L : Collaborators Value).
Implicit Types (r : Request Value).

(** Path validation writes the [url] field and no other. *)
Lemma validatePathParams_frame r :
  exists u, snd (validatePathParams r) = set_url u r.
Proof.
  rewrite validatePathParams_cases.
  repeat case_match; cbn [snd]; eauto; exists (url r); by destruct r.
Qed.

(** How a request comes out of [assemble]. *)
Lemma assemble_Ret r req :
  assemble L r = Ret req ->
  exists b ct req0,
    prepareBody L r = Ret (b, ct)
    /\ http_NewRequest L (method r) (url r) b = inl req0
    /\ setQueryParams L r
         (with_Header (setHeaders r (setContentType ct (setBasicAuth r (req_Header req0))))
            req0) = Ret req.
Proof.
  unfold assemble, mbind, result_bind.
  destruct (prepareBody L r) as [[b ct]|e|p]; try discriminate.
  destruct (http_NewRequest L (method r) (url r) b) as [req0|err] eqn:Hn;
    cbn [wrap]; try discriminate.
  intros Hq. exists b, ct, req0.
  split; [reflexivity|]. split; [exact Hn|]. exact Hq.
Qed.

(** The query step leaves method, header and body alone. *)
Lemma setQueryParams_Ret r req0 req :
  setQueryParams L r req0 = Ret req ->
  req_Method req = req_Method req0
  /\ req_Header req = req_Header req0
  /\ req_Body req = req_Body req0.
Proof.
  unfold setQueryParams, mbind, result_bind, wrap.
  repeat case_match; intros Hq; simplify_eq; done.
Qed.

(** A request reaches the network only after every earlier stage has
    returned normally; it is the assembled request, sent through the
    builder's client. *)
Lemma Dispatch_sent r c req :
  In (EvDo c req) (trace (snd (run (Dispatch L) r))) ->
  validateMethod r = None
  /\ fst (validatePathParams r) = Ret tt
  /\ assemble L (snd (validatePathParams r)) = Ret req
  /\ exists r2, selectTransport L (snd (validatePathParams r)) = (Ret tt, r2)
                /\ httpcli (snd (selectClient r2)) = Some c.
Proof.
  rewrite Dispatch_run, dispatch_run. cbn [snd].
  destruct (validateMethod r); [intros []|].
  destruct (validatePathParams r) as [[[]|e|p] r1]; cbn; try (intros []).
  destruct (assemble L r1) as [req'|e|p]; cbn; try (intros []).
  destruct (selectTransport L r1) as [[[]|e|p] r2]; cbn; try (intros []).
  destruct (transmit_run L req' (snd (selectClient r2)))
    as (tr & res & -> & _ & Hin & _).
  cbn. intros H. apply Hin in H as [Hc ->]. eauto 8.
Qed.

(** A failure while the request is assembled is the error of the call,
    and nothing has reached the outside world. *)
Lemma Dispatch_assemble_failure r e :
  validateMethod r = None ->
  fst (validatePathParams r) = Ret tt ->
  assemble L (snd (validatePathParams r)) = Fail e ->
  run (Dispatch L) r = (Ret (None, Some e), mkWorld (snd (validatePathParams r)) []).
Proof.
  intros Hm Hp Ha. rewrite Dispatch_run, dispatch_run, Hm.
  destruct (validatePathParams r) as [[[]|e'|p] r1]; cbn in *; try discriminate.
  rewrite Ha. reflexivity.
Qed.

(** The request that reaches the network: built by [http.NewRequest]
    from the prepared body, then given the headers. *)
Lemma Dispatch_sent_request r c req :
  In (EvDo c req) (trace (snd (run (Dispatch L) r))) ->
  exists b ct req0,
    prepareBody L r = Ret (b, ct)
    /\ http_NewRequest L (method r) (url (snd (validatePathParams r))) b = inl req0
    /\ req_Body req = req_Body req0
    /\ req_Header req =
       setHeaders r (setContentType ct (setBasicAuth r (req_Header req0)))
    /\ setQueryParams L r
         (with_Header (setHeaders r (setContentType ct (setBasicAuth r (req_Header req0))))
            req0) = Ret req.
Proof.
  intros Hin. apply Dispatch_sent in Hin as (Hm & Hp & Ha & _).
  destruct (validatePathParams_frame r) as [u Hu]. rewrite Hu in *.
  apply assemble_Ret in Ha as (b & ct & req0 & Hb & Hn & Hq).
  pose proof (setQueryParams_Ret _ _ _ Hq) as (_ & Hh & Hbd).
  exists b, ct, req0. repeat split; assumption.
Qed.

End Assembly.

(** ** Headers *)

Section Headers.

Context {Value : Type}.
Implicit Types (r : Request Value) (h : Header).

(** The standard encoding on the test vectors of RFC 4648, and on the
    credentials of the package's test. *)
Lemma EncodeToString_vectors :
  base64.EncodeToString "" = ""
  /\ base64.EncodeToString "f" = "Zg=="
  /\ base64.EncodeToString "fo" = "Zm8="
  /\ base64.EncodeToString "foo" = "Zm9v"
  /\ base64.EncodeToString "foob" = "Zm9vYg=="
  /\ base64.EncodeToString "fooba" = "Zm9vYmE="
  /\ base64.EncodeToString "foobar" = "Zm9vYmFy"
  /\ basicAuth "foo" "foopazz" = "Zm9vOmZvb3Bheno="
  /\ basicAuth "" "" = "Og=="
  /\ basicAuth "u" "" = "dTo="
  /\ basicAuth "" "p" = "OnA=".
Proof. repeat split; reflexivity. Qed.

Lemma setBasicAuth_cases r h :
  setBasicAuth r h =
  if decide (username r <> "" \/ password r <> "")
  then Header_Add h "Authorization"
         ("Basic " +:+ base64.EncodeToString (username r +:+ ":" +:+ password r))
  else h.
Proof.
  unfold setBasicAuth, basicAuth.
  destruct (String.eqb_spec (username r) "") as [Hu|Hu],
           (String.eqb_spec (password r) "") as [Hp|Hp]; cbn [negb orb].
  - rewrite decide_False by tauto. reflexivity.
  - rewrite decide_True by tauto. reflexivity.
  - rewrite decide_True by tauto. reflexivity.
  - rewrite decide_True by tauto. reflexivity.
Qed.

Lemma Header_Add_neq h (k v : string) : Header_Add h k v <> h.
Proof.
  unfold Header_Add. intros H. apply (f_equal length) in H.
  rewrite length_app in H. cbn in H. lia.
Qed.

Lemma setContentType_app (ct : string) h :
  setContentType ct h = h ++ (if decide (ct = "") then [] else [("Content-Type", ct)]).
Proof.
  unfold setContentType, Header_Add.
  destruct (String.eqb_spec ct "") as [-> | Hne]; cbn [negb].
  - by rewrite app_nil_r.
  - by rewrite decide_False.
Qed.

Lemma setBasicAuth_app r h :
  setBasicAuth r h =
  h ++ (if decide (username r <> "" \/ password r <> "")
        then [("Authorization",
               "Basic " +:+ base64.EncodeToString (username r +:+ ":" +:+ password r))]
        else []).
Proof.
  rewrite setBasicAuth_cases. unfold Header_Add.
  case_decide; [reflexivity|by rewrite app_nil_r].
Qed.

(** The loop over the caller's headers appends them all. *)
Lemma setHeaders_app r h : setHeaders r h = h ++ map_to_list (headers r).
Proof.
  unfold setHeaders. destruct (decide _) as [Hpos|Hz].
  - generalize (map_to_list (headers r)) as entries. intros entries. revert h.
    induction entries as [|[k v] entries IH]; intros h; cbn.
    + by rewrite app_nil_r.
    + rewrite IH. unfold Header_Add. by rewrite <- app_assoc.
  - assert (headers r = ∅) as ->.
    { apply map_size_empty_inv. lia. }
    by rewrite map_to_list_empty, app_nil_r.
Qed.

End Headers.

(** C2: the body and the content type come from the first source that is
    set, in the order explicit reader, structured object, form values: the
    reader is passed on with the builder's own content type; the object is
    marshalled and typed application/json, and a marshalling failure is
    the error of [Dispatch], before anything is sent; the form values are
    URL-encoded and typed application/x-www-form-urlencoded; with no
    source there is no body. Every request that reaches the network was
    built from that body and carries that content type. *)
Theorem C2_body_precedence {Value : Type} (L : Collaborators Value)
    (r : Request Value) :
  let chosen :=
    match selectBody r with
    | ExplicitBody b => Ret (Some b, contentType r)
    | StructuredBody v =>
        match json_Marshal L v with
        | inl bits => Ret (Some (Buffer bits), "application/json")
        | inr err => Fail (SerializationFailed err)
        end
    | FormBody values =>
        Ret (Some (Buffer (neturl.Encode values)), "application/x-www-form-urlencoded")
    | NoBody => Ret (None, contentType r)
    end in
  prepareBody L r = chosen
  /\ (forall e,
        validateMethod r = None ->
        fst (validatePathParams r) = Ret tt ->
        chosen = Fail e ->
        run (Dispatch L) r = (Ret (None, Some e), mkWorld (snd (validatePathParams r)) []))
  /\ (forall c req,
        In (EvDo c req) (trace (snd (run (Dispatch L) r))) ->
        exists b ct req0,
          chosen = Ret (b, ct)
          /\ http_NewRequest L (method r) (url (snd (validatePathParams r))) b = inl req0
          /\ req_Body req = req_Body req0
          /\ exists before,
               req_Header req =
               before ++ (if decide (ct = "") then [] else [("Content-Type", ct)])
                      ++ map_to_list (headers r)).
Proof.
  intros chosen.
  assert (prepareBody L r = chosen) as Hchosen.
  { unfold chosen, prepareBody, selectBody, mbind, result_bind, wrap.
    destruct (body r), (bodyStruct r) as [v|], (bodyValues r); try reflexivity;
      destruct (json_Marshal L v); reflexivity. }
  destruct (validatePathParams_frame r) as [u Hu].
  assert (prepareBody L (snd (validatePathParams r)) = chosen) as Hchosen'.
  { rewrite Hu. exact Hchosen. }
  split; [exact Hchosen|]. split.
  - intros e Hm Hp He. rewrite Dispatch_run, dispatch_run, Hm.
    destruct (validatePathParams r) as [[[]|e'|p] r1]; cbn in *; try discriminate.
    unfold assemble, mbind, result_bind. rewrite Hchosen', He. reflexivity.
  - intros c req Hin.
    apply Dispatch_sent_request in Hin as (b & ct & req0 & Hb & Hn & Hbd & Hh & _).
    exists b, ct, req0. rewrite <- Hchosen, Hb.
    split; [reflexivity|]. split; [exact Hn|]. split; [exact Hbd|].
    exists (setBasicAuth r (req_Header req0)).
    rewrite Hh, setHeaders_app, setContentType_app. by rewrite <- app_assoc.
Qed.

(** C7: the basic-auth step adds an Authorization header exactly when the
    user name or the password is non-empty; its value is "Basic "
    followed by the standard base64 encoding of user name, one colon,
    password; and the headers of every request that reaches the network
    are those of [http.NewRequest], then this header if it is added, then
    the content type if there is one, then the caller's headers. *)
Theorem C7_basic_auth {Value : Type} (L : Collaborators Value)
    (r : Request Value) :
  (forall h,
     setBasicAuth r h =
     if decide (username r <> "" \/ password r <> "")
     then Header_Add h "Authorization"
            ("Basic " +:+ base64.EncodeToString (username r +:+ ":" +:+ password r))
     else h)
  /\ (forall h, setBasicAuth r h <> h <-> username r <> "" \/ password r <> "")
  /\ (forall c req,
        In (EvDo c req) (trace (snd (run (Dispatch L) r))) ->
        exists b ct req0,
          http_NewRequest L (method r) (url (snd (validatePathParams r))) b = inl req0
          /\ req_Header req =
             req_Header req0
             ++ (if decide (username r <> "" \/ password r <> "")
                 then [("Authorization",
                        "Basic " +:+ base64.EncodeToString
                                       (username r +:+ ":" +:+ password r))]
                 else [])
             ++ (if decide (ct = "") then [] else [("Content-Type", ct)])
             ++ map_to_list (headers r)).
Proof.
  split; [apply setBasicAuth_cases|]. split.
  - intros h. rewrite setBasicAuth_cases. case_decide.
    + split; [tauto|]. intros _. apply Header_Add_neq.
    + tauto.
  - intros c req Hin.
    apply Dispatch_sent_request in Hin as (b & ct & req0 & _ & Hn & _ & Hh & _).
    exists b, ct, req0. split; [exact Hn|].
    rewrite Hh, setHeaders_app, setContentType_app, setBasicAuth_app.
    by rewrite <- !app_assoc.
Qed.

(** ** Transport and client *)

Section ClientSelection.

Context {Value : Type} (L : Collaborators Value).
Implicit Types (r : Request Value).

(** [transmit] reads the [verbose] and [httpcli] fields only. *)
Lemma transmit_ext req r r' :
  verbose r = verbose r' ->
  httpcli r = httpcli r' ->
  fst (transmit L req (mkWorld r [])) = fst (transmit L req (mkWorld r' []))
  /\ trace (snd (transmit L req (mkWorld r []))) =
     trace (snd (transmit L req (mkWorld r' []))).
Proof.
  intros Hv Hc.
  unfold transmit, send, logResponse, mbind, M_bind, mret, M_ret, get, emit, lift.
  cbn. rewrite Hv, Hc.
  destruct (verbose r'); cbn;
    (destruct (httpcli r') as [c|]; cbn; [|done]);
    destruct (client_Do L c req) as [res|[[res'|] err]]; cbn; try done;
    destruct (ioutil_ReadAll L (Body res)) as [resbody [err|]]; done.
Qed.

(** The client a request is sent through. *)
Lemma Dispatch_client r c req :
  In (EvDo c req) (trace (snd (run (Dispatch L) r))) ->
  match httpcli r with
  | Some c0 => c = c0
  | None =>
      Timeout c = (if (0 <? timeout r)%Z then timeout r else defaultTimeout)
      /\ if decide (proxyURL r = "") then Transport c = Some DefaultTransport
         else exists proxy, url_Parse L (proxyURL r) = inl proxy
                            /\ Transport c = Some (ProxyTransport proxy)
  end.
Proof.
  intros Hin. apply Dispatch_sent in Hin as (_ & _ & _ & r2 & Ht & Hc).
  destruct (validatePathParams_frame r) as [u Hu]. rewrite Hu in Ht. clear Hu.
  unfold selectTransport in Ht. cbn in Ht.
  destruct (httpcli r) as [c0|] eqn:Hcli.
  - inversion Ht; subst r2. unfold selectClient in Hc. cbn in Hc.
    rewrite Hcli in Hc. cbn in Hc. rewrite Hcli in Hc. congruence.
  - destruct (String.eqb_spec (proxyURL r) "") as [Hp|Hp]; cbn in Ht.
    + inversion Ht; subst r2. unfold selectClient in Hc. cbn in Hc.
      rewrite Hcli in Hc. cbn in Hc. inversion Hc; subst c.
      rewrite decide_True by done. by destruct (0 <? timeout r)%Z.
    + destruct (url_Parse L (proxyURL r)) as [proxy|err] eqn:Hparse;
        inversion Ht; subst r2. unfold selectClient in Hc. cbn in Hc.
      rewrite Hcli in Hc. cbn in Hc. inversion Hc; subst c.
      rewrite decide_False by done.
      split; [by destruct (0 <? timeout r)%Z|].
      exists proxy. by destruct (0 <? timeout r)%Z.
Qed.




End ClientSelection.


(** ** DispatchScan *)

Section Scan.

Context {Value : Type} (L : Collaborators Value).
Implicit Types (r : Request Value).

(** [DispatchScan] with a target, in terms of what [Dispatch] returns. *)
Lemma DispatchScan_run r (target : Value) :
  run (DispatchScan L (Some target)) r =
  match run (Dispatch L) r with
  | (Ret (res, Some e), w) => (Fail e, mkWorld (self w) (trace w ++ closes res))
  | (Ret (Some res, None), w) =>
      (match json_Decode L (Body res) target with
       | Some err => Fail (DecodeFailed (StatusCode res) err)
       | None => Ret tt
       end,
       mkWorld (self w) (trace w ++ [EvDecode (Body res); EvClose (Body res)]))
  | (Ret (None, None), w) => (Panic NilDereference, w)
  | (Fail e, w) => (Fail e, w)
  | (Panic p, w) => (Panic p, w)
  end.
Proof.
  unfold run, DispatchScan, mbind, M_bind, mret, M_ret, emit, lift.
  destruct (Dispatch L _) as [[[[res|] [e|]]|e|p] w]; cbn; try reflexivity.
  - destruct (json_Decode L (Body res) target); cbn; by rewrite <- app_assoc.
  - by rewrite app_nil_r; destruct w.
Qed.


End Scan.

(** C8: with a nil target [DispatchScan] returns NilResponseTarget with
    the builder untouched and nothing done to the outside world, for every
    builder, valid or not; with a target it runs [Dispatch]: an error of
    [Dispatch] is returned as it is, after closing the body of a response
    that came with it; a decode failure is returned as DecodeFailed with
    the status code of the response, and the body is closed. *)
Theorem C8_dispatch_scan {Value : Type} (L : Collaborators Value)
    (r : Request Value) :
  run (DispatchScan L None) r = (Fail NilResponseTarget, mkWorld r [])
  /\ forall target : Value,
       (forall res e w,
          run (Dispatch L) r = (Ret (res, Some e), w) ->
          run (DispatchScan L (Some target)) r
          = (Fail e, mkWorld (self w) (trace w ++ closes res)))
       /\ (forall res w err,
             run (Dispatch L) r = (Ret (Some res, None), w) ->
             json_Decode L (Body res) target = Some err ->
             run (DispatchScan L (Some target)) r
             = (Fail (DecodeFailed (StatusCode res) err),
                mkWorld (self w) (trace w ++ [EvDecode (Body res); EvClose (Body res)])))
       /\ (forall res w,
             run (Dispatch L) r = (Ret (Some res, None), w) ->
             json_Decode L (Body res) target = None ->
             run (DispatchScan L (Some target)) r
             = (Ret tt,
                mkWorld (self w) (trace w ++ [EvDecode (Body res); EvClose (Body res)]))).
Proof.
  split; [reflexivity|]. intros target. repeat split.
  - intros res e w Hd. rewrite DispatchScan_run, Hd. by destruct res.
  - intros res w err Hd Hj. rewrite DispatchScan_run, Hd, Hj. reflexivity.
  - intros res w Hd Hj. rewrite DispatchScan_run, Hd, Hj. reflexivity.
Qed.

(** ** Escaping and unescaping *)

Section Codec.

(** A byte that is not escaped is neither '%' nor '+'. *)
Lemma shouldEscape_plain (c : ascii) :
  neturl.shouldEscape c = false -> (c =? "%")%char = false /\ (c =? "+")%char = false.
Proof.
  destruct c as [[] [] [] [] [] [] [] []]; vm_compute; intros H; try discriminate H;
    split; reflexivity.
Qed.

(** The two hexadecimal digits of a byte give the byte back. *)
Lemma hexdigit_unhex (c : ascii) :
  let hi := neturl.hexdigit (N.shiftr (N_of_ascii c) 4) in
  let lo := neturl.hexdigit (N.land (N_of_ascii c) 15) in
  neturl.ishex hi && neturl.ishex lo = true
  /\ ascii_of_N (N.lor (N.shiftl (neturl.unhex hi) 4) (neturl.unhex lo)) = c.
Proof.
  destruct c as [[] [] [] [] [] [] [] []]; vm_compute; split; reflexivity.
Qed.

Lemma append_cons (c : ascii) (s t : string) : String c s +:+ t = String c (s +:+ t).
Proof. reflexivity. Qed.

Lemma append_nil (t : string) : "" +:+ t = t.
Proof. reflexivity. Qed.

(** Unescaping goes through a concatenation. *)
Lemma QueryUnescape_app (a b a' b' : string) :
  neturl.QueryUnescape a = inl a' ->
  neturl.QueryUnescape b = inl b' ->
  neturl.QueryUnescape (a +:+ b) = inl (a' +:+ b').
Proof.
  intros Ha Hb. revert a' Ha.
  remember (String.length a) as n eqn:Hn.
  revert a Hn. induction n as [n IH] using lt_wf_ind. intros a Hn a' Ha.
  destruct a as [|c a1].
  - cbn in Ha. injection Ha as <-. exact Hb.
  - destruct (c =? "%")%char eqn:Hc.
    + destruct a1 as [|x [|y rest]];
        rewrite ?append_cons; cbn [neturl.QueryUnescape] in *; rewrite Hc in *;
        try discriminate Ha.
      destruct (neturl.ishex x && neturl.ishex y); [|discriminate Ha].
      destruct (neturl.QueryUnescape rest) as [t|e] eqn:Hr; [|discriminate Ha].
      injection Ha as <-.
      rewrite (IH (String.length rest) ltac:(subst n; cbn; lia) rest eq_refl t Hr).
      reflexivity.
    + rewrite append_cons. cbn [neturl.QueryUnescape] in *. rewrite Hc in *.
      destruct (neturl.QueryUnescape a1) as [t|e] eqn:Hr; [|discriminate Ha].
      injection Ha as <-.
      rewrite (IH (String.length a1) ltac:(subst n; cbn; lia) a1 eq_refl t Hr).
      reflexivity.
Qed.

(** Unescaping undoes escaping. *)
Lemma QueryUnescape_QueryEscape (s : string) :
  neturl.QueryUnescape (neturl.QueryEscape s) = inl s.
Proof.
  induction s as [|c s IH]; [reflexivity|].
  cbn [neturl.QueryEscape].
  destruct (neturl.shouldEscape c) eqn:He.
  - destruct (c =? " ")%char eqn:Hsp.
    + apply Ascii.eqb_eq in Hsp. subst c.
      cbn [neturl.QueryUnescape]. rewrite IH. reflexivity.
    + destruct (hexdigit_unhex c) as [Hhex Hback].
      cbn [neturl.QueryUnescape]. cbv zeta in Hhex, Hback.
      change ("%" =? "%")%char with true. cbv iota.
      rewrite Hhex, IH, Hback. reflexivity.
  - destruct (shouldEscape_plain c He) as [Hp Hq].
    cbn [neturl.QueryUnescape]. rewrite Hp, IH, Hq. reflexivity.
Qed.


(** What [Encode] produces always unescapes: the unescape step of the
    query stage cannot fail. *)
Lemma QueryUnescape_concat (pieces : list string) :
  Forall (fun p => exists p', neturl.QueryUnescape p = inl p') pieces ->
  exists t, neturl.QueryUnescape (String.concat "&" pieces) = inl t.
Proof.
  induction 1 as [|p rest [p' Hp] Hrest [t IH]]; [by exists ""|].
  destruct rest as [|p2 rest]; [by exists p'|].
  change (String.concat "&" (p :: p2 :: rest))
    with (p +:+ "&" +:+ String.concat "&" (p2 :: rest)).
  eexists. apply QueryUnescape_app; [exact Hp|].
  apply (QueryUnescape_app "&" _ "&"); [reflexivity|exact IH].
Qed.

Lemma QueryUnescape_Encode (v : neturl.Values) :
  exists t, neturl.QueryUnescape (neturl.Encode v) = inl t.
Proof.
  unfold neturl.Encode. apply QueryUnescape_concat.
  apply Forall_forall. intros p Hin. apply list_elem_of_In in Hin.
  apply in_flat_map in Hin as (k & _ & Hin).
  unfold neturl.encodePairs in Hin. apply in_map_iff in Hin as (x & <- & _).
  eexists. apply QueryUnescape_app; [apply QueryUnescape_QueryEscape|].
  apply (QueryUnescape_app "=" _ "="); [reflexivity|apply QueryUnescape_QueryEscape].
Qed.

End Codec.


(** ** Query parameters *)

Section Query.

Context {Value : Type} (L : Collaborators Value).
Implicit Types (r : Request Value) (q present : neturl.Values).

(** After the loop, a key of the mapping holds the values it had in the
    URL followed by the mapping's value; other keys are as in the URL. *)
Lemma addQueryParams_lookup (params : gmap string string) present (k : string) :
  addQueryParams params present !! k =
  match params !! k with
  | Some v => Some (default [] (present !! k) ++ [v])
  | None => present !! k
  end.
Proof.
  unfold addQueryParams. revert k.
  apply (map_fold_weak_ind
           (fun acc (m : gmap string string) =>
              forall k, acc !! k = match m !! k with
                                   | Some v => Some (default [] (present !! k) ++ [v])
                                   | None => present !! k
                                   end)).
  - intros k. by rewrite lookup_empty.
  - intros i x m acc Hi IH k. unfold neturl.Add.
    destruct (decide (i = k)) as [-> | Hne].
    + rewrite !lookup_insert_eq. rewrite (IH k), Hi. reflexivity.
    + rewrite !lookup_insert_ne by done. apply IH.
Qed.

(** On a URL without query values the loop yields the mapping alone. *)
Lemma addQueryParams_empty (params : gmap string string) :
  addQueryParams params ∅ = fromMapping params.
Proof.
  apply map_eq. intros k. rewrite addQueryParams_lookup. unfold fromMapping.
  rewrite lookup_fmap, lookup_empty. by destruct (params !! k).
Qed.

Lemma setQueryParams_cases r req0 :
  0 < size (queryParams r) ->
  setQueryParams L r req0 =
  let q := addQueryParams (queryParams r) (url_Query L (req_URL req0)) in
  if unescapeQueryParams r then
    match neturl.QueryUnescape (neturl.Encode q) with
    | inl params => Ret (with_RawQuery params req0)
    | inr err => Fail (QueryUnescapeFailed err)
    end
  else Ret (with_RawQuery (neturl.Encode q) req0).
Proof.
  intros Hpos. unfold setQueryParams, mbind, result_bind, wrap.
  rewrite decide_True by done. cbv zeta.
  destruct (unescapeQueryParams r); [|reflexivity].
  by destruct (neturl.QueryUnescape _).
Qed.

(** The query step never fails: what [Encode] produces unescapes. *)
Lemma setQueryParams_total r req0 :
  exists req, setQueryParams L r req0 = Ret req.
Proof.
  unfold setQueryParams, mbind, result_bind, wrap.
  destruct (decide _); [|eauto].
  destruct (unescapeQueryParams r); [|eauto].
  destruct (QueryUnescape_Encode
              (addQueryParams (queryParams r) (url_Query L (req_URL req0))))
    as [t ->].
  eauto.
Qed.

End Query.

(** C6 as the specification has it, at a URL that already carries a
    query: for "http://h.test/users?x=1" and the mapping a=b the raw query
    that is sent is "a=b&x=1", not the encoding "a=b" of the mapping. *)
Lemma C6_raw_query_counterexample :
  ~ (forall c req,
       In (EvDo c req) (trace (snd (run (Dispatch Sample.lib) Sample.existingQuery))) ->
       RawQuery (req_URL req)
       = neturl.Encode (fromMapping (queryParams Sample.existingQuery))).
Proof.
  intros H.
  specialize (H {| Transport := Some DefaultTransport; Timeout := defaultTimeout |}
                {| req_Method := "GET";
                   req_URL := {| Location := "http://h.test/users"; RawQuery := "a=b&x=1" |};
                   req_Header := []; req_Body := None |}).
  vm_compute in H. specialize (H (or_introl eq_refl)). discriminate H.
Qed.

(** C6, amended: with a non-empty mapping, the raw query of the request
    that is sent is the encoding of the query values already in the URL
    with each entry of the mapping added after them (the mapping alone
    when the URL has no query values); with [unescapeQueryParams] that
    encoded text is unescaped and the result is the raw query, and a
    failure of the unescaping is returned as QueryUnescapeFailed; a
    failure while the request is assembled is the error of [Dispatch] and
    nothing is sent. *)
Theorem C6_query_params {Value : Type} (L : Collaborators Value)
    (r : Request Value) :
  0 < size (queryParams r) ->
  (forall req0,
     setQueryParams L r req0 =
     let q := addQueryParams (queryParams r) (url_Query L (req_URL req0)) in
     if unescapeQueryParams r then
       match neturl.QueryUnescape (neturl.Encode q) with
       | inl params => Ret (with_RawQuery params req0)
       | inr err => Fail (QueryUnescapeFailed err)
       end
     else Ret (with_RawQuery (neturl.Encode q) req0))
  /\ (forall c req,
        In (EvDo c req) (trace (snd (run (Dispatch L) r))) ->
        exists b req0,
          http_NewRequest L (method r) (url (snd (validatePathParams r))) b = inl req0
          /\ let present := url_Query L (req_URL req0) in
             let q := addQueryParams (queryParams r) present in
             (forall k, q !! k = match queryParams r !! k with
                                 | Some v => Some (default [] (present !! k) ++ [v])
                                 | None => present !! k
                                 end)
             /\ (present = ∅ -> q = fromMapping (queryParams r))
             /\ if unescapeQueryParams r
                then neturl.QueryUnescape (neturl.Encode q) = inl (RawQuery (req_URL req))
                else RawQuery (req_URL req) = neturl.Encode q)
  /\ (forall e,
        validateMethod r = None ->
        fst (validatePathParams r) = Ret tt ->
        assemble L (snd (validatePathParams r)) = Fail e ->
        run (Dispatch L) r = (Ret (None, Some e), mkWorld (snd (validatePathParams r)) [])).
Proof.
  intros Hpos. split; [|split].
  - intros req0. by apply setQueryParams_cases.
  - intros c req Hin.
    apply Dispatch_sent_request in Hin as (b & ct & req0 & _ & Hn & _ & _ & Hq).
    exists b, req0. split; [exact Hn|]. cbv zeta.
    split; [apply addQueryParams_lookup|].
    split; [intros ->; apply addQueryParams_empty|].
    rewrite setQueryParams_cases in Hq by done. cbv zeta in Hq. cbn in Hq.
    destruct (unescapeQueryParams r).
    + destruct (neturl.QueryUnescape _) as [params|err]; by simplify_eq.
    + by simplify_eq.
  - apply Dispatch_assemble_failure.
Qed.

Lemma C6_query_params_witness :
  0 < size (queryParams Sample.unescaped)
  /\ (exists c req,
        In (EvDo c req) (trace (snd (run (Dispatch Sample.lib) Sample.unescaped))))
  /\ neturl.Encode
       (addQueryParams (queryParams Sample.unescaped) (neturl.ParseQuery "wrb=true"))
     = "q=a+b%26c&wrb=true"
  /\ forall c req,
       In (EvDo c req) (trace (snd (run (Dispatch Sample.lib) Sample.unescaped))) ->
       RawQuery (req_URL req) = "q=a b&c&wrb=true".
Proof.
  assert (0 < size (queryParams Sample.unescaped)) as Hpos by (vm_compute; lia).
  split; [exact Hpos|]. split; [|split].
  - eexists _, _. vm_compute. left. reflexivity.
  - vm_compute. reflexivity.
  - intros c req Hin.
    destruct (C6_query_params Sample.lib Sample.unescaped Hpos) as (_ & Hsent & _).
    destruct (Hsent c req Hin) as (b & req0 & Hn & _ & _ & Hraw).
    vm_compute in Hn. injection Hn as <-.
    vm_compute in Hraw. injection Hraw as Hraw. symmetry. exact Hraw.
Defined.

(** ** The package's tests, replayed against the test double *)

Example test_EmptyMethod :
  run (Dispatch Sample.lib) (New "" Sample.serv)
  = (Ret (None, Some errorMethodIsEmpty), mkWorld (New "" Sample.serv) []).
Proof. vm_compute. reflexivity. Qed.

Example test_InvalidMethod :
  run (Dispatch Sample.lib) (New "test" Sample.serv)
  = (Ret (None, Some errMethodUnknown), mkWorld (New "test" Sample.serv) []).
Proof. vm_compute. reflexivity. Qed.

Example test_NoPathParamValuePassed :
  run (Dispatch Sample.lib) Sample.noPathParamValuePassed
  = (Ret (None, Some errNoPathParamValueSet), mkWorld Sample.noPathParamValuePassed []).
Proof. vm_compute. reflexivity. Qed.

Example test_PathParamValueMissing :
  run (Dispatch Sample.lib) Sample.pathParamValueMissing
  = (Ret (None, Some errPathParamPassedIncorrect),
     mkWorld Sample.pathParamValueMissing []).
Proof. vm_compute. reflexivity. Qed.

Example test_ValidPathParamMultiple :
  fst (run (Dispatch Sample.lib) Sample.validPathParamMultiple) = Ret (Some (Sample.ok ""), None)
  /\ url (self (snd (run (Dispatch Sample.lib) Sample.validPathParamMultiple)))
     = "http://127.0.0.1:8080/bar/users/ghazni"
  /\ Sample.sent Sample.validPathParamMultiple
     = [EvDo Sample.defaultClient
          {| req_Method := "GET";
             req_URL := {| Location := "http://127.0.0.1:8080/bar/users/ghazni";
                           RawQuery := "" |};
             req_Header := []; req_Body := None |}].
Proof. repeat split; vm_compute; reflexivity. Qed.

Example test_QueryParamsAndPathParams :
  Sample.sent Sample.withQueryParams
  = [EvDo Sample.defaultClient
       {| req_Method := "POST";
          req_URL := {| Location := "http://127.0.0.1:8080/users/foo";
                        RawQuery := "name=gamma&type=alpha" |};
          req_Header := []; req_Body := None |}].
Proof. vm_compute. reflexivity. Qed.

Example test_BodyStruct :
  Sample.sent Sample.withBodyStruct
  = [EvDo Sample.defaultClient
       {| req_Method := "POST";
          req_URL := {| Location := "http://127.0.0.1:8080/users"; RawQuery := "" |};
          req_Header := [("Content-Type", "application/json")];
          req_Body := Some (Buffer "{name:foo,city:bar}") |}].
Proof. vm_compute. reflexivity. Qed.

Example test_BodyValues :
  Sample.sent Sample.withBodyValues
  = [EvDo Sample.defaultClient
       {| req_Method := "POST";
          req_URL := {| Location := "http://127.0.0.1:8080/users"; RawQuery := "" |};
          req_Header := [("Content-Type", "application/x-www-form-urlencoded")];
          req_Body := Some (Buffer "username=john") |}].
Proof. vm_compute. reflexivity. Qed.

Example test_DispatchScan :
  fst (run (DispatchScan Sample.lib (Some "target")) Sample.dispatchScan) = Ret tt
  /\ fst (run (Dispatch Sample.lib) Sample.dispatchScan) = Ret (Some (Sample.ok "{name:foo}"), None).
Proof. split; vm_compute; reflexivity. Qed.

Example test_BasicAuthHeaders :
  Sample.sent Sample.basicAuthHeaders
  = [EvDo Sample.defaultClient
       {| req_Method := "POST";
          req_URL := {| Location := "http://127.0.0.1:8080/users"; RawQuery := "" |};
          req_Header := [("Authorization", "Basic Zm9vOmZvb3Bheno=");
                         ("Authorization", "ksjhf23j1lkj23")];
          req_Body := None |}].
Proof. vm_compute. reflexivity. Qed.

(** ** Further runs against the test double *)

Example run_timeout_and_proxy :
  Sample.sent (ProxyURL "http://proxy.test" (SetTimeout (5 * Second) (New MethodGet Sample.serv)))
  = [EvDo {| Transport := Some (ProxyTransport {| Location := "http://proxy.test";
                                                  RawQuery := "" |});
             Timeout := 5000000000 |}
       {| req_Method := "GET";
          req_URL := {| Location := "http://127.0.0.1:8080"; RawQuery := "" |};
          req_Header := []; req_Body := None |}].
Proof. vm_compute. reflexivity. Qed.

Example run_proxy_parse_failure :
  run (Dispatch Sample.lib) (ProxyURL ":bad" (New MethodGet Sample.serv))
  = (Ret (None, Some (ProxyParseFailed "missing protocol scheme")),
     mkWorld (set_transport (Some DefaultTransport) (ProxyURL ":bad" (New MethodGet Sample.serv)))
       []).
Proof. vm_compute. reflexivity. Qed.

Example run_caller_client :
  let mine := {| Transport := Some (CallerTransport 7); Timeout := 1 |} in
  Sample.sent (ProxyURL ":bad" (SetTimeout (5 * Second)
                 (HTTPClient (Some mine) (New MethodGet Sample.serv))))
  = [EvDo mine
       {| req_Method := "GET";
          req_URL := {| Location := "http://127.0.0.1:8080"; RawQuery := "" |};
          req_Header := []; req_Body := None |}].
Proof. vm_compute. reflexivity. Qed.

(** [Dispatch] stores the client it builds: a builder that is dispatched
    again keeps that client, whatever timeout is set in between. *)
Example run_twice_keeps_client :
  let once := self (snd (run (Dispatch Sample.lib) (New MethodGet Sample.serv))) in
  httpcli once = Some Sample.defaultClient
  /\ Sample.sent (SetTimeout (5 * Second) once)
     = [EvDo Sample.defaultClient
          {| req_Method := "GET";
             req_URL := {| Location := "http://127.0.0.1:8080"; RawQuery := "" |};
             req_Header := []; req_Body := None |}].
Proof. split; vm_compute; reflexivity. Qed.

Example run_verbose :
  Sample.sent (Verbose true (New MethodGet Sample.serv))
  = let u := {| Location := "http://127.0.0.1:8080"; RawQuery := "" |} in
    [EvLogDispatch u;
     EvDo Sample.defaultClient
       {| req_Method := "GET"; req_URL := u; req_Header := []; req_Body := None |};
     EvReadAll (Buffer "");
     EvLogResponse 200 "200 OK" ""].
Proof. vm_compute. reflexivity. Qed.

Example run_transport_failure :
  fst (run (Dispatch Sample.lib) (New MethodGet "http://down.test/"))
  = Ret (None, Some (DispatchFailed "connection refused")).
Proof. vm_compute. reflexivity. Qed.

Example run_marshal_failure :
  run (Dispatch Sample.lib) (BodyStruct (Some "") (New MethodPost Sample.serv))
  = (Ret (None, Some (SerializationFailed "unsupported type")),
     mkWorld (BodyStruct (Some "") (New MethodPost Sample.serv)) []).
Proof. vm_compute. reflexivity. Qed.

Example run_scan_decode_failure :
  run (DispatchScan Sample.lib (Some "target")) (New MethodGet Sample.serv)
  = (Fail (DecodeFailed 200 "EOF"),
     mkWorld (self (snd (run (Dispatch Sample.lib) (New MethodGet Sample.serv))))
       [EvDo Sample.defaultClient
          {| req_Method := "GET";
             req_URL := {| Location := "http://127.0.0.1:8080"; RawQuery := "" |};
             req_Header := []; req_Body := None |};
        EvDecode (Buffer ""); EvClose (Buffer "")]).
Proof. vm_compute. reflexivity. Qed.

Example run_scan_nil_target :
  run (DispatchScan Sample.lib None) (New "" "")
  = (Fail NilResponseTarget, mkWorld (New "" "") []).
Proof. reflexivity. Qed.


(** * Further properties of the code *)

(** ** The last stage: log, round trip, log *)

Section Transmit.

Context {Value : Type} (L : Collaborators Value).
Implicit Types (r : Request Value).

(** The log line that precedes the round trip in verbose mode. *)
Lemma transmit_cases req r :
  transmit L req (mkWorld r []) =
  let pre := if verbose r then [EvLogDispatch (req_URL req)] else [] in
  match httpcli r with
  | None => (Panic NilDereference, mkWorld r pre)
  | Some c =>
      match client_Do L c req with
      | inr (res, err) =>
          (Fail (DispatchFailed err), mkWorld r (pre ++ EvDo c req :: closes res))
      | inl res =>
          if verbose r then
            match ioutil_ReadAll L (Body res) with
            | (_, Some err) =>
                (Fail (ResponseReadFailed err),
                 mkWorld r (pre ++ [EvDo c req; EvReadAll (Body res)]))
            | (content, None) =>
                (Ret (with_Body (Buffer content) res),
                 mkWorld r (pre ++ [EvDo c req; EvReadAll (Body res);
                                    EvLogResponse (StatusCode res) (Status res) content]))
            end
          else (Ret res, mkWorld r (pre ++ [EvDo c req]))
      end
  end.
Proof.
  unfold transmit, send, logResponse, mbind, M_bind, mret, M_ret, get, emit, lift.
  cbn.
  destruct (verbose r); cbn;
    (destruct (httpcli r) as [c|]; cbn; [|reflexivity]);
    destruct (client_Do L c req) as [res|[[res'|] err]]; cbn; try reflexivity.
  destruct (ioutil_ReadAll L (Body res)) as [content [err|]]; reflexivity.
Qed.

(** After client selection the builder has a client. *)
Lemma selectClient_Some r :
  exists c, httpcli (snd (selectClient r)) = Some c
            /\ (forall c0, httpcli r = Some c0 -> c = c0).
Proof.
  unfold selectClient. destruct (httpcli r) as [c0|] eqn:Hc; cbn.
  - exists c0. split; [exact Hc|]. congruence.
  - eexists. split; [reflexivity|]. discriminate.
Qed.

(** The builder after the two selection stages differs from the one
    before them in [transport] and [httpcli] only. *)
Lemma selection_frame r r2 :
  selectTransport L r = (Ret tt, r2) ->
  sameConfiguration r (snd (selectClient r2))
  /\ url (snd (selectClient r2)) = url r.
Proof.
  unfold selectTransport, selectClient. cbn.
  destruct (httpcli r) as [c0|] eqn:Hc.
  - intros H; inversion H; subst r2. cbn. rewrite Hc. cbn.
    unfold sameConfiguration. cbn. tauto.
  - destruct (negb (String.eqb (proxyURL r) "")).
    + destruct (url_Parse L (proxyURL r)); intros H; inversion H; subst r2.
      cbn. rewrite Hc. unfold sameConfiguration. cbn. tauto.
    + intros H; inversion H; subst r2. cbn. rewrite Hc.
      unfold sameConfiguration. cbn. tauto.
Qed.

End Transmit.

(** ** How a dispatch can end *)

Section Outcomes.

Context {Value : Type} (L : Collaborators Value).
Implicit Types (r : Request Value).

Lemma assemble_no_Panic r p : assemble L r <> Panic p.
Proof.
  unfold assemble, mbind, result_bind.
  pose proof (prepareBody_no_Panic L r) as Hb.
  destruct (prepareBody L r) as [[b ct]|e|p']; try discriminate.
  - destruct (http_NewRequest L (method r) (url r) b) as [req0|err]; cbn [wrap];
      try discriminate.
    match goal with
    | |- context [setQueryParams L r ?x] =>
        destruct (setQueryParams_total L r x) as [req ->]
    end.
    discriminate.
  - by destruct (Hb p').
Qed.

(** Assembling fails only when marshalling or [http.NewRequest] does. *)
Lemma assemble_Fail_cases r e :
  assemble L r = Fail e ->
  exists err, e = SerializationFailed err \/ e = RequestConstructionFailed err.
Proof.
  unfold assemble, mbind, result_bind.
  destruct (prepareBody L r) as [[b ct]|e'|p] eqn:Hb.
  - destruct (http_NewRequest L (method r) (url r) b) as [req0|err]; cbn [wrap].
    + match goal with
      | |- context [setQueryParams L r ?x] =>
          destruct (setQueryParams_total L r x) as [req ->]
      end.
      discriminate.
    + intros H; inversion H. eauto.
  - intros H; inversion H; subst.
    apply prepareBody_Fail in Hb as (v & err & _ & _ & _ & ->). eauto.
  - discriminate.
Qed.

(** The stages of a dispatch, one case per way of ending. *)
Lemma dispatch_stages r :
  (exists e, validateMethod r = Some e
             /\ (e = EmptyMethod \/ e = UnknownMethod)
             /\ run (dispatch L) r = (Fail e, mkWorld r []))
  \/ (validateMethod r = None
      /\ ((exists e, fst (validatePathParams r) = Fail e
                     /\ (e = NoPathParamValue \/ e = PathParamCountMismatch)
                     /\ run (dispatch L) r = (Fail e, mkWorld r []))
          \/ (exists p, fst (validatePathParams r) = Panic p
                        /\ run (dispatch L) r = (Panic p, mkWorld r []))
          \/ (fst (validatePathParams r) = Ret tt
              /\ ((exists e, assemble L (snd (validatePathParams r)) = Fail e
                             /\ run (dispatch L) r
                                = (Fail e, mkWorld (snd (validatePathParams r)) []))
                  \/ (exists req err,
                        assemble L (snd (validatePathParams r)) = Ret req
                        /\ httpcli r = None
                        /\ run (dispatch L) r
                           = (Fail (ProxyParseFailed err),
                              mkWorld (set_transport (Some DefaultTransport)
                                         (snd (validatePathParams r))) []))
                  \/ (exists req r2 c,
                        assemble L (snd (validatePathParams r)) = Ret req
                        /\ selectTransport L (snd (validatePathParams r)) = (Ret tt, r2)
                        /\ httpcli (snd (selectClient r2)) = Some c
                        /\ run (dispatch L) r
                           = transmit L req (mkWorld (snd (selectClient r2)) [])))))).
Proof.
  rewrite dispatch_run. pose proof (validateMethod_cases r) as Hm.
  destruct (validateMethod r) as [e|].
  { left. exists e. split; [reflexivity|]. split; [|reflexivity].
    repeat case_decide; simplify_eq; auto. }
  right. split; [reflexivity|].
  pose proof (validatePathParams_cases r) as Hp.
  destruct (validatePathParams_frame r) as [u Hu].
  destruct (validatePathParams r) as [[[]|e|p] r1]; cbn [fst snd] in *.
  - right. right. split; [reflexivity|].
    destruct (assemble L r1) as [req|e|p] eqn:Ha.
    + destruct (selectTransport L r1) as [[[]|e|p] r2] eqn:Ht.
      * right. right. destruct (selectClient_Some r2) as (c & Hc & _).
        exists req, r2, c. auto.
      * right. left.
        destruct (selectTransport_Fail L r1 e) as (err & Hcli & _ & _ & ->);
          [by rewrite Ht|].
        exists req, err. split; [reflexivity|].
        subst r1. cbn in Hcli. split; [exact Hcli|].
        clear Hm Hp. unfold selectTransport in Ht. cbn in Ht. rewrite Hcli in Ht.
        repeat case_match; simplify_eq; reflexivity.
      * exfalso. clear Hm Hp. unfold selectTransport in Ht.
        repeat case_match; simplify_eq.
    + left. eauto.
    + by destruct (assemble_no_Panic r1 p).
  - left. exists e. split; [reflexivity|]. clear Hm.
    repeat case_match; simplify_eq; (split; [auto|congruence]).
  - right. left. exists p. split; [reflexivity|]. clear Hm.
    repeat case_match; simplify_eq; congruence.
Qed.

End Outcomes.

(** The errors of [Dispatch], by the stage they come from. *)
Lemma Dispatch_error_cases {Value : Type} (L : Collaborators Value)
    (r : Request Value) (e : error) :
  fst (run (Dispatch L) r) = Ret (None, Some e) ->
  (preflight e /\ trace (snd (run (Dispatch L) r)) = [])
  \/ (inflight e
      /\ exists c req, In (EvDo c req) (trace (snd (run (Dispatch L) r)))).
Proof.
  rewrite Dispatch_run. cbn [fst snd].
  destruct (dispatch_stages L r)
    as [(e' & _ & He & ->)
       |(_ & [(e' & _ & He & ->)
             |[(p & _ & ->)
              |(_ & [(e' & Ha & ->)
                    |[(req & err & _ & _ & ->)
                     |(req & r2 & c & _ & _ & Hc & ->)]])]])];
    cbn [fst snd trace].
  - intros H; inversion H; subst e'. left. split; [|reflexivity].
    unfold preflight. tauto.
  - intros H; inversion H; subst e'. left. split; [|reflexivity].
    unfold preflight. tauto.
  - discriminate.
  - intros H; inversion H; subst e'. left. split; [|reflexivity].
    apply assemble_Fail_cases in Ha as [err [-> | ->]];
      unfold preflight; eauto 10.
  - intros H; inversion H; subst e. left. split; [|reflexivity].
    unfold preflight; eauto 10.
  - rewrite transmit_cases, Hc. cbv zeta.
    destruct (client_Do L c req) as [res|[ores err]].
    + destruct (verbose _).
      * destruct (ioutil_ReadAll L (Body res)) as [content [err|]]; cbn [fst snd trace];
          intros H; inversion H; subst e.
        right. split; [unfold inflight; eauto|].
        exists c, req. apply in_or_app. right. left. reflexivity.
      * discriminate.
    + cbn [fst snd trace]. intros H; inversion H; subst e.
      right. split; [unfold inflight; eauto|].
      exists c, req. apply in_or_app. right. left. reflexivity.
Qed.

(** X1: an error of [Dispatch] is either one of the errors of validation,
    assembly and proxy parsing, returned with nothing done to the outside
    world, or a failure of the round trip or of the verbose read, returned
    after the request was sent. [Dispatch] never returns
    PathParamConflict or QueryUnescapeFailed. *)
Theorem X1_dispatch_error_taxonomy {Value : Type} (L : Collaborators Value)
    (r : Request Value) (e : error) :
  fst (run (Dispatch L) r) = Ret (None, Some e) ->
  (preflight e /\ trace (snd (run (Dispatch L) r)) = [])
  \/ (inflight e
      /\ exists c req, In (EvDo c req) (trace (snd (run (Dispatch L) r)))).
Proof. apply Dispatch_error_cases. Qed.

Lemma X1_dispatch_error_taxonomy_witness :
  let r : Request string := New MethodGet "http://down.test/" in
  fst (run (Dispatch Sample.lib) r) = Ret (None, Some (DispatchFailed "connection refused"))
  /\ ((preflight (DispatchFailed "connection refused")
       /\ trace (snd (run (Dispatch Sample.lib) r)) = [])
      \/ (inflight (DispatchFailed "connection refused")
          /\ exists c req, In (EvDo c req) (trace (snd (run (Dispatch Sample.lib) r))))).
Proof.
  split; [vm_compute; reflexivity|].
  apply X1_dispatch_error_taxonomy. vm_compute. reflexivity.
Defined.


(** ** Positional substitution *)

Section Substitution.

Implicit Types (splits values : list string).

Lemma placeholders_app splits1 splits2 :
  placeholders (splits1 ++ splits2) = placeholders splits1 + placeholders splits2.
Proof.
  induction splits1 as [|s rest IH]; [reflexivity|].
  cbn [app placeholders]. destruct (strings.HasPrefix s pathParamIndicator); lia.
Qed.

(** A placeholder has fewer placeholders before it than there are in all. *)
Lemma placeholders_before splits (i : nat) (s : string) :
  splits !! i = Some s ->
  strings.HasPrefix s ":" = true ->
  placeholders (take i splits) < placeholders splits.
Proof.
  intros Hi Hs. rewrite <- (take_drop_middle splits i s Hi) at 2.
  rewrite placeholders_app. cbn [placeholders].
  unfold pathParamIndicator. rewrite Hs. lia.
Qed.

(** The piece at position [i] after the substitution: a placeholder gets
    the value whose index is the number of placeholders before it (and
    stays when the values have run out); any other piece stays. *)
Lemma substitute_lookup splits values (i : nat) (s : string) :
  splits !! i = Some s ->
  substitute splits values !! i =
  Some (if strings.HasPrefix s ":"
        then default s (values !! placeholders (take i splits))
        else s).
Proof.
  revert values i. induction splits as [|s0 rest IH]; intros values i Hi;
    [discriminate|].
  destruct i as [|i].
  - cbn in Hi. injection Hi as ->. cbn [substitute take placeholders].
    unfold pathParamIndicator.
    destruct (strings.HasPrefix s ":"); [|reflexivity]. by destruct values.
  - cbn in Hi. cbn [substitute take placeholders]. unfold pathParamIndicator in *.
    destruct (strings.HasPrefix s0 ":").
    + destruct values as [|v unused]; cbn; rewrite (IH _ _ Hi);
        destruct (strings.HasPrefix s ":"); reflexivity.
    + cbn. apply IH. exact Hi.
Qed.

Lemma length_substitute splits values :
  length (substitute splits values) = length splits.
Proof.
  revert values. induction splits as [|s rest IH]; intros values; [reflexivity|].
  cbn [substitute]. destruct (strings.HasPrefix s pathParamIndicator);
    [destruct values|]; cbn; by rewrite IH.
Qed.

End Substitution.

(** X3: for a URL that contains "/:", does not start with ':' and holds
    as many "/:" as there are values, path validation succeeds and
    rewrites the URL piece by piece: the number of '/'-separated pieces
    stays, every piece that starts with ':' is replaced by the value whose
    index is the number of such pieces to its left, every other piece
    stays where it is, and all values are used. *)
Theorem X3_path_substitution {Value : Type} (r : Request Value) :
  strings.Contains (url r) "/:" = true ->
  strings.HasPrefix (url r) ":" = false ->
  strings.Count (url r) "/:" = length (pathParams r) ->
  exists pieces,
    validatePathParams r = (Ret tt, set_url (strings.Join pieces "/") r)
    /\ length pieces = length (strings.Split (url r) "/")
    /\ placeholders (strings.Split (url r) "/") = length (pathParams r)
    /\ forall (i : nat) (s : string),
         strings.Split (url r) "/" !! i = Some s ->
         pieces !! i =
         if strings.HasPrefix s ":"
         then pathParams r !! placeholders (take i (strings.Split (url r) "/"))
         else Some s.
Proof.
  intros Hc Hp Hn.
  destruct (validatePathParams_substitutes r Hc Hp Hn) as [Hv Hall].
  exists (substitute (strings.Split (url r) "/") (pathParams r)).
  split; [exact Hv|]. split; [apply length_substitute|]. split; [exact Hall|].
  intros i s Hi. rewrite (substitute_lookup _ _ _ _ Hi).
  destruct (strings.HasPrefix s ":") eqn:Hs; [|reflexivity].
  pose proof (placeholders_before _ _ _ Hi Hs) as Hlt. rewrite Hall in Hlt.
  destruct (lookup_lt_is_Some_2 (pathParams r) _ Hlt) as [v Hv'].
  rewrite Hv'. reflexivity.
Qed.

Lemma X3_path_substitution_witness :
  let r := Sample.validPathParamMultiple in
  strings.Contains (url r) "/:" = true
  /\ strings.HasPrefix (url r) ":" = false
  /\ strings.Count (url r) "/:" = length (pathParams r)
  /\ exists pieces,
       validatePathParams r = (Ret tt, set_url (strings.Join pieces "/") r)
       /\ length pieces = length (strings.Split (url r) "/")
       /\ placeholders (strings.Split (url r) "/") = length (pathParams r)
       /\ forall (i : nat) (s : string),
            strings.Split (url r) "/" !! i = Some s ->
            pieces !! i =
            if strings.HasPrefix s ":"
            then pathParams r !! placeholders (take i (strings.Split (url r) "/"))
            else Some s.
Proof.
  cbv zeta. split; [reflexivity|]. split; [reflexivity|]. split; [reflexivity|].
  apply X3_path_substitution; reflexivity.
Defined.

(** ** Validating a second time *)

Section Revalidation.

Lemma Contains_cons (c : ascii) (s : string) :
  strings.Contains (String c s) "/:" =
  ((c =? "/")%char && strings.HasPrefix s ":") || strings.Contains s "/:".
Proof.
  cbn [strings.Contains]. unfold strings.HasPrefix.
  by rewrite prefix_cons, (Ascii.eqb_sym "/" c).
Qed.

(** No piece of a split contains "/:". *)
Lemma Split_pieces (s : string) :
  Forall (fun p => strings.Contains p "/:" = false) (strings.Split s "/").
Proof.
  induction s as [|c s IH]; [by repeat constructor|].
  rewrite Split_cons. destruct (c =? "/")%char eqn:Hc.
  - constructor; [reflexivity|exact IH].
  - pose proof (Split_nonempty s) as Hne.
    destruct (strings.Split s "/") as [|seg rest]; [contradiction|].
    cbn [strings.cons_head]. inversion IH as [|? ? Hseg Hrest]; subst.
    constructor; [|exact Hrest]. by rewrite Contains_cons, Hc, Hseg.
Qed.

(** Putting a '/' between two texts without "/:" gives a text without
    "/:", unless the second one starts with ':'. *)
Lemma Contains_sep (p t : string) :
  strings.Contains p "/:" = false ->
  strings.HasPrefix t ":" = false ->
  strings.Contains t "/:" = false ->
  strings.Contains (p +:+ "/" +:+ t) "/:" = false.
Proof.
  intros Hp Ht Hc. induction p as [|c p IH].
  - change ("" +:+ "/" +:+ t) with (String "/" t).
    by rewrite Contains_cons, Ht, Hc.
  - change (String c p +:+ "/" +:+ t) with (String c (p +:+ "/" +:+ t)).
    rewrite Contains_cons in Hp |- *.
    apply orb_false_iff in Hp as [Hhead Htail].
    rewrite (IH Htail), orb_false_r.
    destruct (c =? "/")%char; [|reflexivity]. cbn [andb] in *.
    destruct p as [|d p]; [reflexivity|].
    change (String d p +:+ "/" +:+ t) with (String d (p +:+ "/" +:+ t)).
    rewrite HasPrefix_colon in *. exact Hhead.
Qed.

Lemma HasPrefix_Join (q : string) (l : list string) :
  strings.HasPrefix q ":" = false ->
  strings.HasPrefix (strings.Join (q :: l) "/") ":" = false.
Proof.
  intros Hq. unfold strings.Join. destruct l as [|q' l]; [exact Hq|].
  change (String.concat "/" (q :: q' :: l))
    with (q +:+ "/" +:+ String.concat "/" (q' :: l)).
  destruct q as [|c q]; [reflexivity|].
  change (String c q +:+ "/" +:+ String.concat "/" (q' :: l))
    with (String c (q +:+ "/" +:+ String.concat "/" (q' :: l))).
  rewrite HasPrefix_colon in *. exact Hq.
Qed.

Lemma inert_spec (v : string) :
  inert v = true <->
  strings.HasPrefix v ":" = false /\ strings.Contains v "/:" = false.
Proof.
  unfold inert. rewrite andb_true_iff, !negb_true_iff. reflexivity.
Qed.

(** Joining inert pieces gives a text without "/:". *)
Lemma Contains_Join (l : list string) :
  Forall (fun p => inert p = true) l ->
  strings.Contains (strings.Join l "/") "/:" = false.
Proof.
  induction 1 as [|p l Hp Hl IH]; [reflexivity|].
  apply inert_spec in Hp as [Hpre Hcon].
  destruct l as [|q l]; [exact Hcon|].
  change (strings.Join (p :: q :: l) "/")
    with (p +:+ "/" +:+ strings.Join (q :: l) "/").
  apply Contains_sep; [exact Hcon| |exact IH].
  apply HasPrefix_Join. inversion Hl as [|? ? Hq _]; subst.
  by apply inert_spec in Hq as [? _].
Qed.

(** Substituting inert values into the pieces of a split leaves inert
    pieces only, when there is a value for every placeholder. *)
Lemma substitute_inert (splits values : list string) :
  Forall (fun p => strings.Contains p "/:" = false) splits ->
  Forall (fun v => inert v = true) values ->
  placeholders splits <= length values ->
  Forall (fun p => inert p = true) (substitute splits values).
Proof.
  intros Hs. revert values. induction Hs as [|s rest Hcon Hrest IH];
    intros values Hv Hn; [constructor|].
  cbn [substitute placeholders] in *. unfold pathParamIndicator in *.
  destruct (strings.HasPrefix s ":") eqn:Hpre.
  - destruct values as [|v unused]; [cbn in Hn; lia|].
    inversion Hv as [|? ? Hv1 Hv2]; subst.
    constructor; [exact Hv1|]. apply IH; [exact Hv2|]. cbn in Hn. lia.
  - constructor; [by apply inert_spec|]. by apply IH.
Qed.

End Revalidation.

(** X4: when no path-parameter value starts with ':' or contains "/:", a
    successful path validation leaves a URL without "/:", so validating
    the builder again returns no error and changes nothing. *)
Theorem X4_revalidation_noop {Value : Type} (r r1 : Request Value) :
  validatePathParams r = (Ret tt, r1) ->
  Forall (fun v => inert v = true) (pathParams r) ->
  strings.Contains (url r1) "/:" = false
  /\ validatePathParams r1 = (Ret tt, r1).
Proof.
  intros Hv Hin.
  assert (strings.Contains (url r1) "/:" = false) as Hno.
  { pose proof (placeholders_Split (url r)) as Hpl.
    rewrite validatePathParams_cases in Hv.
    destruct (strings.Contains (url r) "/:") eqn:Hc.
    - repeat case_decide; try discriminate.
      destruct (strings.HasPrefix (url r) ":"); [discriminate|].
      injection Hv as <-. cbn [url set_url].
      apply Contains_Join, substitute_inert; [apply Split_pieces|exact Hin|lia].
    - injection Hv as <-. exact Hc. }
  split; [exact Hno|].
  unfold validatePathParams, urlPathParamSeparator. rewrite Hno. reflexivity.
Qed.

Lemma X4_revalidation_noop_witness :
  let r := Sample.validPathParamMultiple in
  let r1 := set_url "http://127.0.0.1:8080/bar/users/ghazni" r in
  validatePathParams r = (Ret tt, r1)
  /\ Forall (fun v => inert v = true) (pathParams r)
  /\ strings.Contains (url r1) "/:" = false
  /\ validatePathParams r1 = (Ret tt, r1).
Proof.
  cbv zeta.
  assert (Forall (fun v => inert v = true) (pathParams Sample.validPathParamMultiple))
    as Hin by (repeat constructor).
  split; [reflexivity|]. split; [exact Hin|].
  apply (X4_revalidation_noop Sample.validPathParamMultiple); [reflexivity|exact Hin].
Defined.

(** ** What a dispatch leaves behind *)

Section Aftermath.

Context {Value : Type} (L : Collaborators Value).
Implicit Types (r : Request Value).

Lemma sameConfiguration_refl r : sameConfiguration r r.
Proof. unfold sameConfiguration. tauto. Qed.

Lemma sameConfiguration_trans r r' r'' :
  sameConfiguration r r' -> sameConfiguration r' r'' -> sameConfiguration r r''.
Proof.
  unfold sameConfiguration. intros H1 H2.
  destruct H1 as (?&?&?&?&?&?&?&?&?&?&?&?&?&?).
  destruct H2 as (?&?&?&?&?&?&?&?&?&?&?&?&?&?).
  repeat split; congruence.
Qed.

Lemma sameConfiguration_path r : sameConfiguration r (snd (validatePathParams r)).
Proof.
  destruct (validatePathParams_frame r) as [u ->].
  unfold sameConfiguration. cbn. tauto.
Qed.

(** A request that was sent: the stages before the round trip returned
    normally, and the rest of the call is [transmit]. *)
Lemma Dispatch_sent_transmit r c req :
  In (EvDo c req) (trace (snd (run (Dispatch L) r))) ->
  exists r2,
    selectTransport L (snd (validatePathParams r)) = (Ret tt, r2)
    /\ httpcli (snd (selectClient r2)) = Some c
    /\ run (dispatch L) r = transmit L req (mkWorld (snd (selectClient r2)) []).
Proof.
  rewrite Dispatch_run. cbn [snd].
  destruct (dispatch_stages L r)
    as [(e' & _ & _ & ->)
       |(_ & [(e' & _ & _ & ->)
             |[(p & _ & ->)
              |(_ & [(e' & _ & ->)
                    |[(req' & err & _ & _ & ->)
                     |(req' & r2 & c' & _ & Ht & Hc & Hrun)]])]])];
    cbn [snd trace]; try (intros []).
  rewrite Hrun.
  destruct (transmit_run L req' (snd (selectClient r2)))
    as (tr & res & Htr & _ & Hin & _).
  rewrite Htr. cbn [snd trace]. intros H. apply Hin in H as [Hc' ->].
  exists r2. rewrite <- Htr. repeat split; congruence.
Qed.

(** The builder after a dispatch. *)
Lemma Dispatch_frame r : sameConfiguration r (self (snd (run (Dispatch L) r))).
Proof.
  rewrite Dispatch_run. cbn [snd].
  destruct (dispatch_stages L r)
    as [(e' & _ & _ & ->)
       |(_ & [(e' & _ & _ & ->)
             |[(p & _ & ->)
              |(_ & [(e' & _ & ->)
                    |[(req' & err & _ & _ & ->)
                     |(req' & r2 & c' & _ & Ht & Hc & ->)]])]])];
    cbn [snd self]; try apply sameConfiguration_refl.
  - apply sameConfiguration_path.
  - eapply sameConfiguration_trans; [apply sameConfiguration_path|].
    unfold sameConfiguration. cbn. tauto.
  - destruct (transmit_run L req' (snd (selectClient r2))) as (tr & res & -> & _).
    cbn [snd self].
    eapply sameConfiguration_trans; [apply sameConfiguration_path|].
    by destruct (selection_frame L _ _ Ht).
Qed.

End Aftermath.

(** X5: whatever the outcome, [Dispatch] leaves every field of the
    builder as it was, except [url], [transport] and [httpcli]; so does
    [DispatchScan]. *)
Theorem X5_dispatch_frame {Value : Type} (L : Collaborators Value)
    (r : Request Value) :
  sameConfiguration r (self (snd (run (Dispatch L) r)))
  /\ forall response : option Value,
       sameConfiguration r (self (snd (run (DispatchScan L response) r))).
Proof.
  split; [apply Dispatch_frame|].
  intros [target|]; [|apply sameConfiguration_refl].
  rewrite DispatchScan_run. pose proof (Dispatch_frame L r) as Hf.
  destruct (run (Dispatch L) r) as [[[[res|] [e|]]|e|p] w]; exact Hf.
Qed.

(** X6: the client a request was sent through is stored in the builder,
    and every later dispatch of that builder sends through the same
    client, whatever proxy URL or timeout is set in between. *)
Theorem X6_client_is_kept {Value : Type} (L : Collaborators Value)
    (r : Request Value) (c : Client) (req : HTTPRequest) :
  In (EvDo c req) (trace (snd (run (Dispatch L) r))) ->
  let r' := self (snd (run (Dispatch L) r)) in
  httpcli r' = Some c
  /\ forall (p : string) (t : Z) c' req',
       In (EvDo c' req') (trace (snd (run (Dispatch L) (ProxyURL p (SetTimeout t r'))))) ->
       c' = c.
Proof.
  intros Hin. cbv zeta.
  assert (httpcli (self (snd (run (Dispatch L) r))) = Some c) as Hcli.
  { apply Dispatch_sent_transmit in Hin as (r2 & _ & Hc & Hrun).
    rewrite Dispatch_run, Hrun. cbn [snd].
    destruct (transmit_run L req (snd (selectClient r2))) as (tr & res & -> & _).
    exact Hc. }
  split; [exact Hcli|].
  intros p t c' req' Hin'. apply Dispatch_client in Hin'.
  cbn [ProxyURL SetTimeout set_proxyURL set_timeout httpcli] in Hin'.
  rewrite Hcli in Hin'. exact Hin'.
Qed.

Lemma X6_client_is_kept_witness :
  let r : Request string := New MethodGet Sample.serv in
  let req := {| req_Method := "GET";
                req_URL := {| Location := "http://127.0.0.1:8080"; RawQuery := "" |};
                req_Header := []; req_Body := None |} in
  In (EvDo Sample.defaultClient req) (trace (snd (run (Dispatch Sample.lib) r)))
  /\ httpcli (self (snd (run (Dispatch Sample.lib) r))) = Some Sample.defaultClient
  /\ forall (p : string) (t : Z) c' req',
       In (EvDo c' req')
          (trace (snd (run (Dispatch Sample.lib)
                         (ProxyURL p (SetTimeout t (self (snd (run (Dispatch Sample.lib) r))))))))
       -> c' = Sample.defaultClient.
Proof.
  cbv zeta.
  assert (In (EvDo Sample.defaultClient
                {| req_Method := "GET";
                   req_URL := {| Location := "http://127.0.0.1:8080"; RawQuery := "" |};
                   req_Header := []; req_Body := None |})
             (trace (snd (run (Dispatch Sample.lib) (New MethodGet Sample.serv))))) as Hin
    by (vm_compute; left; reflexivity).
  split; [exact Hin|].
  exact (X6_client_is_kept Sample.lib _ _ _ Hin).
Defined.

(** ** The round trip *)

Section RoundTrip.

Context {Value : Type} (L : Collaborators Value).
Implicit Types (r : Request Value).

(** Either nothing reaches the outside world, or the call ends in
    [transmit] on a builder that has a client and the verbosity of the
    original one. *)
Lemma Dispatch_reaches r :
  (trace (snd (run (Dispatch L) r)) = []
   /\ forall res, fst (run (Dispatch L) r) <> Ret (Some res, None))
  \/ exists req c r3,
       run (dispatch L) r = transmit L req (mkWorld r3 [])
       /\ httpcli r3 = Some c
       /\ verbose r3 = verbose r.
Proof.
  rewrite Dispatch_run. cbn [fst snd].
  destruct (dispatch_stages L r)
    as [(e' & _ & _ & ->)
       |(_ & [(e' & _ & _ & ->)
             |[(p & _ & ->)
              |(_ & [(e' & _ & ->)
                    |[(req' & err & _ & _ & ->)
                     |(req' & r2 & c' & _ & Ht & Hc & ->)]])]])];
    cbn [fst snd trace]; try (left; split; [reflexivity|discriminate]).
  right. exists req', c', (snd (selectClient r2)).
  split; [reflexivity|]. split; [exact Hc|].
  destruct (selection_frame L _ _ Ht) as [Hs _].
  pose proof (sameConfiguration_path r) as Hp.
  pose proof (sameConfiguration_trans _ _ _ Hp Hs) as Hall.
  unfold sameConfiguration in Hall. tauto.
Qed.

End RoundTrip.


(** X8: a successful [Dispatch] never closes the body of the response it
    returns: closing is left to the caller. [DispatchScan] on the same
    builder closes that body exactly once. *)
Theorem X8_body_ownership {Value : Type} (L : Collaborators Value)
    (r : Request Value) (res : Response) (w : world Value) :
  run (Dispatch L) r = (Ret (Some res, None), w) ->
  List.filter is_Close (trace w) = []
  /\ forall target : Value,
       List.filter is_Close (trace (snd (run (DispatchScan L (Some target)) r)))
       = [EvClose (Body res)].
Proof.
  intros Hrun.
  assert (List.filter is_Close (trace w) = []) as Hnone.
  { destruct (Dispatch_reaches L r) as [[_ Hno]|(req & c & r3 & Hd & Hc & Hv)].
    - rewrite Hrun in Hno. by destruct (Hno res).
    - rewrite Dispatch_run, Hd, transmit_cases, Hc in Hrun. cbv zeta in Hrun.
      destruct (client_Do L c req) as [res0|[[res'|] err]];
        destruct (verbose r3);
        try destruct (ioutil_ReadAll L (Body res0)) as [content [err'|]];
        cbn in Hrun; inversion Hrun; subst; reflexivity. }
  split; [exact Hnone|].
  intros target. rewrite DispatchScan_run, Hrun. cbn [snd trace].
  rewrite List.filter_app, Hnone. reflexivity.
Qed.

Lemma X8_body_ownership_witness :
  let r := Sample.dispatchScan in
  let w := snd (run (Dispatch Sample.lib) r) in
  run (Dispatch Sample.lib) r = (Ret (Some (Sample.ok "{name:foo}"), None), w)
  /\ List.filter is_Close (trace w) = []
  /\ forall target : string,
       List.filter is_Close (trace (snd (run (DispatchScan Sample.lib (Some target)) r)))
       = [EvClose (Buffer "{name:foo}")].
Proof.
  cbv zeta.
  assert (run (Dispatch Sample.lib) Sample.dispatchScan
          = (Ret (Some (Sample.ok "{name:foo}"), None),
             snd (run (Dispatch Sample.lib) Sample.dispatchScan))) as Hrun
    by (vm_compute; reflexivity).
  split; [exact Hrun|].
  exact (X8_body_ownership Sample.lib _ _ _ Hrun).
Defined.

Section Sent.

Context {Value : Type} (L : Collaborators Value).
Implicit Types (r : Request Value).

(** A request that was sent, with the state its round trip runs in. *)
Lemma Dispatch_sent_reaches r c req :
  In (EvDo c req) (trace (snd (run (Dispatch L) r))) ->
  exists r3,
    run (dispatch L) r = transmit L req (mkWorld r3 [])
    /\ httpcli r3 = Some c
    /\ verbose r3 = verbose r.
Proof.
  intros Hin.
  destruct (Dispatch_reaches L r) as [[Hnil _]|(req' & c' & r3 & Hrun & Hc & Hv)].
  - rewrite Hnil in Hin. destruct Hin.
  - rewrite Dispatch_run, Hrun in Hin. cbn [snd] in Hin.
    destruct (transmit_run L req' r3) as (tr & res & Htr & _ & Hsent & _).
    rewrite Htr in Hin. cbn [snd trace] in Hin.
    apply Hsent in Hin as [Hc' ->]. exists r3. repeat split; congruence.
Qed.

(** A response that was returned came out of a round trip. *)
Lemma Dispatch_returned r res w :
  run (Dispatch L) r = (Ret (Some res, None), w) ->
  exists req c r3,
    run (dispatch L) r = transmit L req (mkWorld r3 [])
    /\ httpcli r3 = Some c
    /\ verbose r3 = verbose r.
Proof.
  intros Hrun.
  destruct (Dispatch_reaches L r) as [[_ Hno]|H]; [|exact H].
  rewrite Hrun in Hno. by destruct (Hno res).
Qed.

End Sent.

(** X9: when the round trip fails, [Dispatch] returns DispatchFailed with
    the cause and no response; a response that came with the error has
    its body closed, and nothing else happens after the round trip. *)
Theorem X9_transport_failure {Value : Type} (L : Collaborators Value)
    (r : Request Value) (c : Client) (req : HTTPRequest)
    (res : option Response) (err : LibErr) :
  In (EvDo c req) (trace (snd (run (Dispatch L) r))) ->
  client_Do L c req = inr (res, err) ->
  fst (run (Dispatch L) r) = Ret (None, Some (DispatchFailed err))
  /\ trace (snd (run (Dispatch L) r))
     = (if verbose r then [EvLogDispatch (req_URL req)] else [])
       ++ EvDo c req :: closes res.
Proof.
  intros Hin Hdo.
  apply Dispatch_sent_reaches in Hin as (r3 & Hrun & Hc & Hv).
  rewrite Dispatch_run, Hrun, transmit_cases, Hc, Hdo, Hv. cbv zeta.
  split; reflexivity.
Qed.

Lemma X9_transport_failure_witness :
  let r : Request string := Verbose true (New MethodGet Sample.serv) in
  let u := {| Location := "http://127.0.0.1:8080"; RawQuery := "" |} in
  let req := {| req_Method := "GET"; req_URL := u; req_Header := []; req_Body := None |} in
  let res := {| StatusCode := 302; Status := "302 Found"; Body := Stream 2 |} in
  In (EvDo Sample.defaultClient req) (trace (snd (run (Dispatch Sample.libFailedRedirect) r)))
  /\ client_Do Sample.libFailedRedirect Sample.defaultClient req
     = inr (Some res, "stopped after 10 redirects")
  /\ fst (run (Dispatch Sample.libFailedRedirect) r)
     = Ret (None, Some (DispatchFailed "stopped after 10 redirects"))
  /\ trace (snd (run (Dispatch Sample.libFailedRedirect) r))
     = [EvLogDispatch u; EvDo Sample.defaultClient req; EvClose (Stream 2)].
Proof.
  cbv zeta.
  split; [vm_compute; right; left; reflexivity|].
  split; [reflexivity|].
  apply (X9_transport_failure Sample.libFailedRedirect
           (Verbose true (New MethodGet Sample.serv)) Sample.defaultClient
           {| req_Method := "GET";
              req_URL := {| Location := "http://127.0.0.1:8080"; RawQuery := "" |};
              req_Header := []; req_Body := None |}
           (Some {| StatusCode := 302; Status := "302 Found"; Body := Stream 2 |})
           "stopped after 10 redirects").
  - vm_compute. right. left. reflexivity.
  - reflexivity.
Defined.

(** X10: the response that [Dispatch] returns is the one the round trip
    produced. Without verbose mode it is returned untouched; in verbose
    mode its status is kept and its body is a fresh buffer over exactly
    the bytes that were read from the original body and logged. *)
Theorem X10_returned_response {Value : Type} (L : Collaborators Value)
    (r : Request Value) (res : Response) (w : world Value) :
  run (Dispatch L) r = (Ret (Some res, None), w) ->
  exists c req res0,
    In (EvDo c req) (trace w)
    /\ client_Do L c req = inl res0
    /\ StatusCode res = StatusCode res0
    /\ Status res = Status res0
    /\ if verbose r
       then exists content,
              ioutil_ReadAll L (Body res0) = (content, None)
              /\ Body res = Buffer content
              /\ In (EvLogResponse (StatusCode res0) (Status res0) content) (trace w)
       else res = res0.
Proof.
  intros Hrun.
  destruct (Dispatch_returned L r res w Hrun) as (req & c & r3 & Hd & Hc & Hv).
  rewrite Dispatch_run, Hd, transmit_cases, Hc, Hv in Hrun. cbv zeta in Hrun.
  exists c, req.
  destruct (client_Do L c req) as [res0|[ores err]]; [|discriminate Hrun].
  exists res0. destruct (verbose r).
  - destruct (ioutil_ReadAll L (Body res0)) as [content [err|]] eqn:Hread;
      [discriminate Hrun|].
    cbn in Hrun. inversion Hrun; subst. cbn.
    split; [tauto|]. repeat split. exists content. repeat split. tauto.
  - cbn in Hrun. inversion Hrun; subst. cbn. tauto.
Qed.

Lemma X10_returned_response_witness :
  let r := Verbose true Sample.dispatchScan in
  let w := snd (run (Dispatch Sample.lib) r) in
  run (Dispatch Sample.lib) r = (Ret (Some (Sample.ok "{name:foo}"), None), w)
  /\ exists c req res0,
       In (EvDo c req) (trace w)
       /\ client_Do Sample.lib c req = inl res0
       /\ StatusCode (Sample.ok "{name:foo}") = StatusCode res0
       /\ Status (Sample.ok "{name:foo}") = Status res0
       /\ exists content,
            ioutil_ReadAll Sample.lib (Body res0) = (content, None)
            /\ Body (Sample.ok "{name:foo}") = Buffer content
            /\ In (EvLogResponse (StatusCode res0) (Status res0) content) (trace w).
Proof.
  cbv zeta.
  assert (run (Dispatch Sample.lib) (Verbose true Sample.dispatchScan)
          = (Ret (Some (Sample.ok "{name:foo}"), None),
             snd (run (Dispatch Sample.lib) (Verbose true Sample.dispatchScan)))) as Hrun
    by (vm_compute; reflexivity).
  split; [exact Hrun|].
  exact (X10_returned_response Sample.lib _ _ _ Hrun).
Defined.

(** X11: in verbose mode, when reading the response body fails,
    [Dispatch] returns ResponseReadFailed and no response, and the body
    of the response is not closed. *)
Theorem X11_verbose_read_failure {Value : Type} (L : Collaborators Value)
    (r : Request Value) (c : Client) (req : HTTPRequest) (res0 : Response)
    (content : string) (err : LibErr) :
  In (EvDo c req) (trace (snd (run (Dispatch L) r))) ->
  client_Do L c req = inl res0 ->
  verbose r = true ->
  ioutil_ReadAll L (Body res0) = (content, Some err) ->
  fst (run (Dispatch L) r) = Ret (None, Some (ResponseReadFailed err))
  /\ List.filter is_Close (trace (snd (run (Dispatch L) r))) = [].
Proof.
  intros Hin Hdo Hverb Hread.
  apply Dispatch_sent_reaches in Hin as (r3 & Hrun & Hc & Hv).
  rewrite Dispatch_run, Hrun, transmit_cases, Hc, Hdo, Hv, Hverb, Hread.
  cbv zeta. split; reflexivity.
Qed.

Lemma X11_verbose_read_failure_witness :
  let r : Request string := Verbose true (New MethodGet Sample.serv) in
  let req := {| req_Method := "GET";
                req_URL := {| Location := "http://127.0.0.1:8080"; RawQuery := "" |};
                req_Header := []; req_Body := None |} in
  In (EvDo Sample.defaultClient req) (trace (snd (run (Dispatch Sample.libBrokenStream) r)))
  /\ fst (run (Dispatch Sample.libBrokenStream) r)
     = Ret (None, Some (ResponseReadFailed "unexpected EOF"))
  /\ List.filter is_Close (trace (snd (run (Dispatch Sample.libBrokenStream) r))) = [].
Proof.
  cbv zeta.
  split; [vm_compute; right; left; reflexivity|].
  apply (X11_verbose_read_failure Sample.libBrokenStream
           (Verbose true (New MethodGet Sample.serv)) Sample.defaultClient
           {| req_Method := "GET";
              req_URL := {| Location := "http://127.0.0.1:8080"; RawQuery := "" |};
              req_Header := []; req_Body := None |}
           {| StatusCode := 200; Status := "200 OK"; Body := Stream 1 |}
           "" "unexpected EOF").
  - vm_compute. right. left. reflexivity.
  - reflexivity.
  - reflexivity.
  - reflexivity.
Defined.

(** ** Settings that do not matter *)

Section Settings.

Context {Value : Type} (L : Collaborators Value).
Implicit Types (r : Request Value).

(** When a request is sent, in terms of the stages before the round
    trip. *)
Lemma Dispatch_sent_iff r c req :
  In (EvDo c req) (trace (snd (run (Dispatch L) r)))
  <-> validateMethod r = None
      /\ fst (validatePathParams r) = Ret tt
      /\ assemble L (snd (validatePathParams r)) = Ret req
      /\ fst (selectTransport L (snd (validatePathParams r))) = Ret tt
      /\ httpcli (snd (selectClient (snd (selectTransport L (snd (validatePathParams r))))))
         = Some c.
Proof.
  split.
  - intros Hin. apply Dispatch_sent in Hin as (Hm & Hp & Ha & r2 & Ht & Hc).
    rewrite Ht. cbn [fst snd]. auto.
  - intros (Hm & Hp & Ha & Ht & Hc).
    rewrite Dispatch_run, dispatch_run, Hm. cbn [snd].
    destruct (validatePathParams r) as [[[]|e|p] r1]; cbn [fst snd] in *;
      try discriminate.
    rewrite Ha.
    destruct (selectTransport L r1) as [[[]|e|p] r2]; cbn [fst snd] in *;
      try discriminate.
    destruct (transmit_run L req (snd (selectClient r2)))
      as (tr & res & -> & _ & _ & Hsent).
    cbn [snd trace]. by apply Hsent.
Qed.

(** Path validation looks at [url] and [pathParams] only. *)
Lemma validatePathParams_ext r r' :
  url r' = url r ->
  pathParams r' = pathParams r ->
  fst (validatePathParams r') = fst (validatePathParams r)
  /\ exists u, snd (validatePathParams r') = set_url u r'
               /\ snd (validatePathParams r) = set_url u r.
Proof.
  intros Hu Hp. rewrite (validatePathParams_cases r), (validatePathParams_cases r').
  rewrite Hu, Hp.
  assert (exists u, r' = set_url u r' /\ r = set_url u r) as Hsame.
  { exists (url r). split; [rewrite <- Hu; by destruct r'|by destruct r]. }
  destruct (strings.Contains (url r) "/:"); [|by split].
  repeat case_decide; try (by split).
  destruct (strings.HasPrefix (url r) ":"); [by split|].
  cbn [fst snd]. split; [reflexivity|]. eexists. split; reflexivity.
Qed.

(** The two selection stages look at [httpcli], [proxyURL], [transport]
    and [timeout] only, and leave [verbose] alone. *)
Lemma selection_ext r r' :
  httpcli r' = httpcli r ->
  proxyURL r' = proxyURL r ->
  timeout r' = timeout r ->
  fst (selectTransport L r') = fst (selectTransport L r)
  /\ httpcli (snd (selectClient (snd (selectTransport L r'))))
     = httpcli (snd (selectClient (snd (selectTransport L r))))
  /\ verbose (snd (selectClient (snd (selectTransport L r')))) = verbose r'
  /\ verbose (snd (selectClient (snd (selectTransport L r)))) = verbose r.
Proof.
  intros Hc Hp Ht. unfold selectTransport, selectClient. cbn. rewrite Hc, Hp.
  destruct (httpcli r) as [c|] eqn:Hcli; cbn.
  - rewrite ?Hc, ?Hcli. cbn. repeat split; congruence.
  - destruct (negb (String.eqb (proxyURL r) ""));
      [destruct (url_Parse L (proxyURL r))|];
      cbn; rewrite ?Hc, ?Hcli, ?Ht; cbn; repeat split; congruence.
Qed.

(** Two builders that send the same request through the same client and
    pass the same stages behave alike up to what verbosity adds. *)
Lemma Dispatch_sent_ext r r' :
  method r' = method r ->
  url r' = url r ->
  pathParams r' = pathParams r ->
  (forall u, assemble L (set_url u r') = assemble L (set_url u r)) ->
  httpcli r' = httpcli r ->
  proxyURL r' = proxyURL r ->
  timeout r' = timeout r ->
  forall c req,
    In (EvDo c req) (trace (snd (run (Dispatch L) r')))
    <-> In (EvDo c req) (trace (snd (run (Dispatch L) r))).
Proof.
  intros Hm Hu Hp Ha Hc Hx Ht c req. rewrite !Dispatch_sent_iff.
  destruct (validatePathParams_ext r r' Hu Hp) as (Hf & u & -> & ->).
  destruct (selection_ext (set_url u r) (set_url u r')) as (Hs & Hcl & _); try assumption.
  unfold validateMethod. rewrite Hm, Hf, Ha, Hs, Hcl. reflexivity.
Qed.

(** With the same verbosity as well, the outcome and the trace agree. *)
Lemma Dispatch_ext r r' :
  method r' = method r ->
  url r' = url r ->
  pathParams r' = pathParams r ->
  (forall u, assemble L (set_url u r') = assemble L (set_url u r)) ->
  httpcli r' = httpcli r ->
  proxyURL r' = proxyURL r ->
  timeout r' = timeout r ->
  verbose r' = verbose r ->
  fst (run (Dispatch L) r') = fst (run (Dispatch L) r)
  /\ trace (snd (run (Dispatch L) r')) = trace (snd (run (Dispatch L) r)).
Proof.
  intros Hm Hu Hp Ha Hc Hx Ht Hv. rewrite !Dispatch_run, !dispatch_run. cbn [fst snd].
  unfold validateMethod. rewrite Hm.
  fold (validateMethod r). destruct (validateMethod r); [done|].
  destruct (validatePathParams_ext r r' Hu Hp) as (Hf & u & Hs' & Hs).
  destruct (validatePathParams r') as [o' r1'], (validatePathParams r) as [o r1].
  cbn [fst snd] in *. subst o' r1' r1.
  destruct o as [[]|e|p]; try done.
  rewrite Ha. destruct (assemble L (set_url u r)) as [req|e|p]; try done.
  destruct (selection_ext (set_url u r) (set_url u r')) as (Hsel & Hcl & Hv1 & Hv2);
    try assumption.
  destruct (selectTransport L (set_url u r')) as [o2' r2'],
           (selectTransport L (set_url u r)) as [o2 r2].
  cbn [fst snd] in *. subst o2'.
  destruct o2 as [[]|e|p]; try done.
  destruct (transmit_ext L req (snd (selectClient r2')) (snd (selectClient r2)))
    as [Hfst Htr]; [cbn in Hv1, Hv2; congruence|exact Hcl|].
  by rewrite Hfst, Htr.
Qed.

End Settings.

(** X12: verbose mode changes nothing about what is sent: with or
    without it, the same request goes through the same client, or none
    does. *)
Theorem X12_verbose_sends_the_same {Value : Type} (L : Collaborators Value)
    (r : Request Value) (v : bool) (c : Client) (req : HTTPRequest) :
  In (EvDo c req) (trace (snd (run (Dispatch L) (Verbose v r))))
  <-> In (EvDo c req) (trace (snd (run (Dispatch L) r))).
Proof. by apply Dispatch_sent_ext. Qed.

(** X13: a builder straight from [New], with nothing set, sends exactly
    the request that [http.NewRequest] returns for its method and URL
    with no body - no header added, query untouched - through a client
    with the default transport and the thirty-second timeout; the method
    is then one of the nine and the URL has no "/:". *)
Theorem X13_fresh_builder {Value : Type} (L : Collaborators Value)
    (m u : string) (c : Client) (req : HTTPRequest) :
  In (EvDo c req) (trace (snd (run (Dispatch L) (New (Value := Value) m u)))) ->
  http_NewRequest L m u None = inl req
  /\ c = {| Transport := Some DefaultTransport; Timeout := defaultTimeout |}
  /\ m ∈ httpMethods
  /\ strings.Contains u "/:" = false.
Proof.
  intros Hin. apply Dispatch_sent_iff in Hin as (Hm & Hp & Ha & Ht & Hc).
  assert (strings.Contains u "/:" = false) as Hno.
  { rewrite validatePathParams_cases in Hp. cbn [New url pathParams] in Hp.
    destruct (strings.Contains u "/:"); [|reflexivity]. discriminate Hp. }
  assert (snd (validatePathParams (New (Value := Value) m u)) = New m u) as Hr.
  { unfold validatePathParams, urlPathParamSeparator. cbn [New url]. by rewrite Hno. }
  rewrite Hr in *. clear Hr Hp.
  split; [|split; [|split; [|exact Hno]]].
  - unfold assemble, prepareBody, setQueryParams, mbind, result_bind in Ha.
    cbn in Ha.
    destruct (http_NewRequest L m u None) as [req0|err]; [|discriminate Ha].
    cbn in Ha. injection Ha as <-. by destruct req0.
  - cbn in Hc. congruence.
  - rewrite validateMethod_cases in Hm. cbn [New method] in Hm.
    repeat case_decide; try discriminate. assumption.
Qed.

Lemma X13_fresh_builder_witness :
  let req := {| req_Method := "GET";
                req_URL := {| Location := "http://127.0.0.1:8080"; RawQuery := "" |};
                req_Header := []; req_Body := None |} in
  In (EvDo Sample.defaultClient req)
     (trace (snd (run (Dispatch Sample.lib) (New MethodGet Sample.serv))))
  /\ http_NewRequest Sample.lib MethodGet Sample.serv None = inl req
  /\ Sample.defaultClient
     = {| Transport := Some DefaultTransport; Timeout := defaultTimeout |}
  /\ MethodGet ∈ httpMethods
  /\ strings.Contains Sample.serv "/:" = false.
Proof.
  cbv zeta.
  assert (In (EvDo Sample.defaultClient
                {| req_Method := "GET";
                   req_URL := {| Location := "http://127.0.0.1:8080"; RawQuery := "" |};
                   req_Header := []; req_Body := None |})
             (trace (snd (run (Dispatch Sample.lib) (New MethodGet Sample.serv))))) as Hin
    by (vm_compute; left; reflexivity).
  split; [exact Hin|].
  exact (X13_fresh_builder Sample.lib _ _ _ _ Hin).
Defined.

(** X14: with no query parameter set, the query step leaves the request
    as [http.NewRequest] made it, and [unescapeQueryParams] has no effect
    on the outcome of a dispatch or on what it does. *)
Theorem X14_no_query_params {Value : Type} (L : Collaborators Value)
    (r : Request Value) :
  queryParams r = ∅ ->
  (forall req0, setQueryParams L r req0 = Ret req0)
  /\ forall unescape : bool,
       fst (run (Dispatch L) (UnescapeQueryParams unescape r)) = fst (run (Dispatch L) r)
       /\ trace (snd (run (Dispatch L) (UnescapeQueryParams unescape r)))
          = trace (snd (run (Dispatch L) r)).
Proof.
  intros Hq.
  assert (forall (x : Request Value) req0,
            queryParams x = ∅ -> setQueryParams L x req0 = Ret req0) as Hstep.
  { intros x req0 Hx. unfold setQueryParams. rewrite Hx, map_size_empty.
    by rewrite decide_False by lia. }
  split; [intros req0; by apply Hstep|].
  intros unescape. apply Dispatch_ext; try reflexivity.
  intros u. unfold assemble, mbind, result_bind.
  change (prepareBody L (set_url u (UnescapeQueryParams unescape r)))
    with (prepareBody L (set_url u r)).
  destruct (prepareBody L (set_url u r)) as [[b ct]|e|p]; try reflexivity.
  cbn. destruct (http_NewRequest L (method r) u b) as [req0|err]; [|reflexivity].
  cbn. rewrite !Hstep; [reflexivity|exact Hq|exact Hq].
Qed.

Lemma X14_no_query_params_witness :
  let r : Request string := New MethodGet Sample.serv in
  queryParams r = ∅
  /\ (forall req0, setQueryParams Sample.lib r req0 = Ret req0)
  /\ forall unescape : bool,
       fst (run (Dispatch Sample.lib) (UnescapeQueryParams unescape r))
       = fst (run (Dispatch Sample.lib) r)
       /\ trace (snd (run (Dispatch Sample.lib) (UnescapeQueryParams unescape r)))
          = trace (snd (run (Dispatch Sample.lib) r)).
Proof.
  cbv zeta. split; [reflexivity|].
  apply (X14_no_query_params Sample.lib (New MethodGet Sample.serv)). reflexivity.
Defined.

(** ** What unescaping the encoded query gives *)

Section Plain.

Lemma QueryUnescape_concat_plain (pieces plains : list string) :
  Forall2 (fun p q => neturl.QueryUnescape p = inl q) pieces plains ->
  neturl.QueryUnescape (String.concat "&" pieces) = inl (String.concat "&" plains).
Proof.
  induction 1 as [|p q pieces plains Hp Hrest IH]; [reflexivity|].
  destruct Hrest as [|p2 q2 pieces plains Hp2 Hrest]; [exact Hp|].
  change (String.concat "&" (p :: p2 :: pieces))
    with (p +:+ "&" +:+ String.concat "&" (p2 :: pieces)).
  change (String.concat "&" (q :: q2 :: plains))
    with (q +:+ "&" +:+ String.concat "&" (q2 :: plains)).
  apply QueryUnescape_app; [exact Hp|].
  apply (QueryUnescape_app "&" _ "&"); [reflexivity|exact IH].
Qed.

Lemma encodePairs_plain (key : string) (vs : list string) :
  Forall2 (fun p q => neturl.QueryUnescape p = inl q)
          (neturl.encodePairs key vs) (plainPairs key vs).
Proof.
  unfold neturl.encodePairs, plainPairs.
  induction vs as [|v vs IH]; [constructor|].
  cbn [map]. constructor; [|exact IH].
  apply QueryUnescape_app; [apply QueryUnescape_QueryEscape|].
  apply (QueryUnescape_app "=" _ "="); [reflexivity|apply QueryUnescape_QueryEscape].
Qed.

(** Unescaping what [Encode] produces gives the pairs as they were
    before any escaping. *)
Lemma QueryUnescape_Encode_plain (v : neturl.Values) :
  neturl.QueryUnescape (neturl.Encode v) = inl (plainQuery v).
Proof.
  unfold neturl.Encode, plainQuery. apply QueryUnescape_concat_plain.
  generalize (merge_sort neturl.string_le (map fst (map_to_list v))) as keys.
  intros keys. induction keys as [|k keys IH]; [constructor|].
  cbn [flat_map]. apply Forall2_app; [apply encodePairs_plain|exact IH].
Qed.

End Plain.

(** X15: with query parameters and [unescapeQueryParams] set, the raw
    query of the request that is sent is the text of the pairs with no
    escaping at all: "key=value" for the URL's own values and the
    mapping's, keys in sorted order, joined by '&', with '&', '=' and
    spaces inside keys and values left as they are. *)
Theorem X15_unescaped_query_is_plain {Value : Type} (L : Collaborators Value)
    (r : Request Value) (c : Client) (req : HTTPRequest) :
  In (EvDo c req) (trace (snd (run (Dispatch L) r))) ->
  0 < size (queryParams r) ->
  unescapeQueryParams r = true ->
  exists b req0,
    http_NewRequest L (method r) (url (snd (validatePathParams r))) b = inl req0
    /\ RawQuery (req_URL req)
       = plainQuery (addQueryParams (queryParams r) (url_Query L (req_URL req0))).
Proof.
  intros Hin Hpos Hun.
  apply Dispatch_sent_request in Hin as (b & ct & req0 & _ & Hn & _ & _ & Hq).
  exists b, req0. split; [exact Hn|].
  rewrite setQueryParams_cases in Hq by exact Hpos. cbv zeta in Hq.
  rewrite Hun in Hq. cbn [req_URL with_Header] in Hq.
  rewrite QueryUnescape_Encode_plain in Hq. by injection Hq as <-.
Qed.

Lemma X15_unescaped_query_is_plain_witness :
  let r := Sample.unescaped in
  let req := {| req_Method := "POST";
                req_URL := {| Location := "http://h.test/users";
                              RawQuery := "q=a b&c&wrb=true" |};
                req_Header := []; req_Body := None |} in
  In (EvDo Sample.defaultClient req) (trace (snd (run (Dispatch Sample.lib) r)))
  /\ 0 < size (queryParams r)
  /\ unescapeQueryParams r = true
  /\ exists b req0,
       http_NewRequest Sample.lib (method r) (url (snd (validatePathParams r))) b = inl req0
       /\ RawQuery (req_URL req)
          = plainQuery (addQueryParams (queryParams r) (url_Query Sample.lib (req_URL req0))).
Proof.
  cbv zeta.
  assert (In (EvDo Sample.defaultClient
                {| req_Method := "POST";
                   req_URL := {| Location := "http://h.test/users";
                                 RawQuery := "q=a b&c&wrb=true" |};
                   req_Header := []; req_Body := None |})
             (trace (snd (run (Dispatch Sample.lib) Sample.unescaped)))) as Hin
    by (vm_compute; left; reflexivity).
  assert (0 < size (queryParams Sample.unescaped)) as Hpos by (vm_compute; lia).
  split; [exact Hin|]. split; [exact Hpos|]. split; [reflexivity|].
  exact (X15_unescaped_query_is_plain Sample.lib _ _ _ Hin Hpos eq_refl).
Defined.

(** X16: when [http.NewRequest] refuses the URL, [Dispatch] returns
    RequestConstructionFailed with the cause and nothing is sent; the
    builder nevertheless keeps the URL that path validation has written
    into it. *)
Theorem X16_request_construction_failure {Value : Type} (L : Collaborators Value)
    (r : Request Value) (b : option Reader) (ct : string) (err : LibErr) :
  validateMethod r = None ->
  fst (validatePathParams r) = Ret tt ->
  prepareBody L r = Ret (b, ct) ->
  http_NewRequest L (method r) (url (snd (validatePathParams r))) b = inr err ->
  run (Dispatch L) r
  = (Ret (None, Some (RequestConstructionFailed err)),
     mkWorld (snd (validatePathParams r)) []).
Proof.
  intros Hm Hp Hb Hn. apply Dispatch_assemble_failure; [exact Hm|exact Hp|].
  destruct (validatePathParams_frame r) as [u Hu]. rewrite Hu in *.
  unfold assemble, mbind, result_bind.
  change (prepareBody L (set_url u r)) with (prepareBody L r). rewrite Hb.
  cbn in Hn |- *. rewrite Hn. reflexivity.
Qed.

Lemma X16_request_construction_failure_witness :
  let r := Sample.lineFeed in
  validateMethod r = None
  /\ fst (validatePathParams r) = Ret tt
  /\ prepareBody Sample.libStrict r = Ret (None, "")
  /\ url (snd (validatePathParams r)) = "http://127.0.0.1:8080/users/" +:+ String "010" "x"
  /\ run (Dispatch Sample.libStrict) r
     = (Ret (None, Some (RequestConstructionFailed "invalid control character in URL")),
        mkWorld (snd (validatePathParams r)) []).
Proof.
  cbv zeta. split; [reflexivity|]. split; [reflexivity|]. split; [reflexivity|].
  split; [reflexivity|].
  apply (X16_request_construction_failure Sample.libStrict Sample.lineFeed None "");
    reflexivity.
Defined.

(** The three shapes of what [Dispatch] returns. *)
Lemma Dispatch_shape {Value : Type} (L : Collaborators Value) (r : Request Value) :
  (exists res, fst (run (Dispatch L) r) = Ret (Some res, None))
  \/ (exists e, fst (run (Dispatch L) r) = Ret (None, Some e))
  \/ (exists p, fst (run (Dispatch L) r) = Panic p).
Proof.
  rewrite Dispatch_run. cbn [fst].
  destruct (fst (run (dispatch L) r)); eauto.
Qed.

(** X17: [DispatchScan] returns NilResponseTarget exactly when its target
    is nil; with a target, its error is an error of [Dispatch] or
    DecodeFailed with the status code of a response that [Dispatch]
    returned, and it returns no error exactly when [Dispatch] returned a
    response and decoding it succeeded. *)
Theorem X17_dispatch_scan_outcomes {Value : Type} (L : Collaborators Value)
    (r : Request Value) :
  (forall response : option Value,
     fst (run (DispatchScan L response) r) = Fail NilResponseTarget
     <-> response = None)
  /\ forall target : Value,
       (forall e,
          fst (run (DispatchScan L (Some target)) r) = Fail e ->
          fst (run (Dispatch L) r) = Ret (None, Some e)
          \/ exists res err,
               fst (run (Dispatch L) r) = Ret (Some res, None)
               /\ json_Decode L (Body res) target = Some err
               /\ e = DecodeFailed (StatusCode res) err)
       /\ (fst (run (DispatchScan L (Some target)) r) = Ret tt
           <-> exists res,
                 fst (run (Dispatch L) r) = Ret (Some res, None)
                 /\ json_Decode L (Body res) target = None).
Proof.
  assert (fst (run (Dispatch L) r) <> Ret (None, Some NilResponseTarget)) as Hnil.
  { intros H. apply Dispatch_error_cases in H as [[Hpre _]|[[err Hin] _]].
    - unfold preflight in Hpre.
      destruct Hpre as [H|[H|[H|[H|[err [H|[H|H]]]]]]]; discriminate H.
    - destruct Hin as [H|H]; discriminate H. }
  assert (forall target : Value,
            fst (run (DispatchScan L (Some target)) r) =
            match fst (run (Dispatch L) r) with
            | Ret (Some res, None) =>
                match json_Decode L (Body res) target with
                | Some err => Fail (DecodeFailed (StatusCode res) err)
                | None => Ret tt
                end
            | Ret (_, Some e) => Fail e
            | Ret (None, None) => Panic NilDereference
            | Fail e => Fail e
            | Panic p => Panic p
            end) as Hscan.
  { intros target. rewrite DispatchScan_run.
    destruct (run (Dispatch L) r) as [[[[res|] [e|]]|e|p] w]; reflexivity. }
  split.
  - intros [target|]; [|by split].
    split; [|discriminate]. rewrite Hscan.
    destruct (Dispatch_shape L r) as [[res Hs]|[[e Hs]|[p Hs]]]; rewrite Hs in *.
    + destruct (json_Decode L (Body res) target); discriminate.
    + intros H; inversion H; subst. by destruct Hnil.
    + discriminate.
  - intros target. rewrite Hscan.
    destruct (Dispatch_shape L r) as [[res Hs]|[[e Hs]|[p Hs]]]; rewrite Hs.
    + destruct (json_Decode L (Body res) target) as [err|] eqn:Hj; split.
      * intros e H; inversion H; subst. right. eauto.
      * split; [discriminate|]. intros (res' & H & Hd).
        inversion H; subst. congruence.
      * discriminate.
      * split; [|reflexivity]. eauto.
    + split; [intros e' H; inversion H; subst; by left|].
      split; [discriminate|]. intros (res' & H & _). discriminate H.
    + split; [discriminate|].
      split; [discriminate|]. intros (res' & H & _). discriminate H.
Qed.

(** ** The pieces of the rewritten URL *)

Section Pieces.

Lemma Contains_slash_cons (c : ascii) (s : string) :
  strings.Contains (String c s) "/" = (c =? "/")%char || strings.Contains s "/".
Proof.
  cbn [strings.Contains]. by rewrite prefix_cons, prefix_nil, andb_true_r, Ascii.eqb_sym.
Qed.

(** A text without '/' is a single piece. *)
Lemma Split_noSlash (p : string) :
  noSlash p = true -> strings.Split p "/" = [p].
Proof.
  unfold noSlash. rewrite negb_true_iff.
  induction p as [|c p IH]; [reflexivity|].
  rewrite Contains_slash_cons, Split_cons. intros H.
  apply orb_false_iff in H as [-> Hp]. by rewrite (IH Hp).
Qed.

(** Splitting at a '/' that follows a text without '/'. *)
Lemma Split_app_sep (p t : string) :
  noSlash p = true ->
  strings.Split (p +:+ "/" +:+ t) "/" = p :: strings.Split t "/".
Proof.
  unfold noSlash. rewrite negb_true_iff.
  induction p as [|c p IH].
  - intros _. change ("" +:+ "/" +:+ t) with (String "/" t). by rewrite Split_cons.
  - change (String c p +:+ "/" +:+ t) with (String c (p +:+ "/" +:+ t)).
    rewrite Contains_slash_cons, Split_cons. intros H.
    apply orb_false_iff in H as [-> Hp]. by rewrite (IH Hp).
Qed.

(** Splitting undoes joining, for pieces without '/'. *)
Lemma Split_Join (l : list string) :
  l <> [] ->
  Forall (fun p => noSlash p = true) l ->
  strings.Split (strings.Join l "/") "/" = l.
Proof.
  intros Hne Hall. induction Hall as [|p l Hp Hl IH]; [contradiction|].
  destruct l as [|q l].
  - by apply Split_noSlash.
  - change (strings.Join (p :: q :: l) "/")
      with (p +:+ "/" +:+ strings.Join (q :: l) "/").
    rewrite (Split_app_sep _ _ Hp), IH; [reflexivity|discriminate].
Qed.

(** The pieces of a split have no '/'. *)
Lemma Split_noSlash_pieces (s : string) :
  Forall (fun p => noSlash p = true) (strings.Split s "/").
Proof.
  induction s as [|c s IH]; [by repeat constructor|].
  rewrite Split_cons. destruct (c =? "/")%char eqn:Hc.
  - constructor; [reflexivity|exact IH].
  - pose proof (Split_nonempty s) as Hne.
    destruct (strings.Split s "/") as [|seg rest]; [contradiction|].
    cbn [strings.cons_head]. inversion IH as [|? ? Hseg Hrest]; subst.
    constructor; [|exact Hrest].
    unfold noSlash in *. by rewrite Contains_slash_cons, Hc.
Qed.

Lemma substitute_noSlash (splits values : list string) :
  Forall (fun p => noSlash p = true) splits ->
  Forall (fun v => noSlash v = true) values ->
  Forall (fun p => noSlash p = true) (substitute splits values).
Proof.
  intros Hs. revert values. induction Hs as [|s rest Hp Hrest IH];
    intros values Hv; [constructor|].
  cbn [substitute]. destruct (strings.HasPrefix s pathParamIndicator).
  - destruct values as [|v unused].
    + constructor; [exact Hp|by apply IH].
    + inversion Hv; subst. constructor; [assumption|by apply IH].
  - constructor; [exact Hp|by apply IH].
Qed.

End Pieces.

(** X18: when no value contains '/', path validation keeps the pieces of
    the URL in place: the rewritten URL splits into as many pieces as the
    original one, a piece that started with ':' is now the value whose
    index is the number of such pieces to its left, and every other piece
    is what it was. *)
Theorem X18_rewritten_url_pieces {Value : Type} (r : Request Value) :
  strings.Contains (url r) "/:" = true ->
  strings.HasPrefix (url r) ":" = false ->
  strings.Count (url r) "/:" = length (pathParams r) ->
  Forall (fun v => noSlash v = true) (pathParams r) ->
  fst (validatePathParams r) = Ret tt
  /\ length (strings.Split (url (snd (validatePathParams r))) "/")
     = length (strings.Split (url r) "/")
  /\ forall (i : nat) (s : string),
       strings.Split (url r) "/" !! i = Some s ->
       strings.Split (url (snd (validatePathParams r))) "/" !! i =
       if strings.HasPrefix s ":"
       then pathParams r !! placeholders (take i (strings.Split (url r) "/"))
       else Some s.
Proof.
  intros Hc Hp Hn Hv.
  destruct (validatePathParams_substitutes r Hc Hp Hn) as [Hval Hall].
  rewrite Hval. cbn [fst snd url set_url].
  assert (strings.Split
            (strings.Join (substitute (strings.Split (url r) "/") (pathParams r)) "/") "/"
          = substitute (strings.Split (url r) "/") (pathParams r)) as ->.
  { apply Split_Join.
    - intros Hnil. apply (f_equal length) in Hnil.
      rewrite length_substitute, length_Split in Hnil. discriminate Hnil.
    - apply substitute_noSlash; [apply Split_noSlash_pieces|exact Hv]. }
  split; [reflexivity|]. split; [apply length_substitute|].
  intros i s Hi. rewrite (substitute_lookup _ _ _ _ Hi).
  destruct (strings.HasPrefix s ":") eqn:Hs; [|reflexivity].
  pose proof (placeholders_before _ _ _ Hi Hs) as Hlt. rewrite Hall in Hlt.
  destruct (lookup_lt_is_Some_2 (pathParams r) _ Hlt) as [v Hv'].
  rewrite Hv'. reflexivity.
Qed.

Lemma X18_rewritten_url_pieces_witness :
  let r := Sample.validPathParamMultiple in
  strings.Contains (url r) "/:" = true
  /\ strings.HasPrefix (url r) ":" = false
  /\ strings.Count (url r) "/:" = length (pathParams r)
  /\ Forall (fun v => noSlash v = true) (pathParams r)
  /\ strings.Split (url (snd (validatePathParams r))) "/"
     = ["http:"; ""; "127.0.0.1:8080"; "bar"; "users"; "ghazni"]
  /\ forall (i : nat) (s : string),
       strings.Split (url r) "/" !! i = Some s ->
       strings.Split (url (snd (validatePathParams r))) "/" !! i =
       if strings.HasPrefix s ":"
       then pathParams r !! placeholders (take i (strings.Split (url r) "/"))
       else Some s.
Proof.
  cbv zeta.
  assert (Forall (fun v => noSlash v = true) (pathParams Sample.validPathParamMultiple))
    as Hv by (repeat constructor).
  split; [reflexivity|]. split; [reflexivity|]. split; [reflexivity|].
  split; [exact Hv|]. split; [reflexivity|].
  apply (X18_rewritten_url_pieces Sample.validPathParamMultiple);
    [reflexivity|reflexivity|reflexivity|exact Hv].
Defined.

(** X20: the errors of path validation, exactly: NoPathParamValue when
    the URL contains "/:" and no value was given; PathParamCountMismatch
    when it contains "/:", values were given, and their number differs
    from the number of "/:"; no other error, PathParamConflict included;
    and whenever path validation does not succeed the builder is left as
    it was. *)
Theorem X20_path_validation_errors {Value : Type} (r : Request Value) :
  (forall e,
     fst (validatePathParams r) = Fail e
     <-> strings.Contains (url r) "/:" = true
         /\ ((length (pathParams r) = 0 /\ e = NoPathParamValue)
             \/ (length (pathParams r) <> 0
                 /\ strings.Count (url r) "/:" <> length (pathParams r)
                 /\ e = PathParamCountMismatch)))
  /\ (fst (validatePathParams r) <> Ret tt -> snd (validatePathParams r) = r).
Proof.
  rewrite validatePathParams_cases.
  destruct (strings.Contains (url r) "/:").
  - destruct (decide (length (pathParams r) = 0)) as [H0|H0].
    { split; [|reflexivity]. intros e. cbn [fst]. split.
      - intros H; inversion H. split; [reflexivity|]. left. by split.
      - intros [_ [[_ ->]|[Hne _]]]; [reflexivity|contradiction]. }
    destruct (decide (strings.Count (url r) "/:" <> length (pathParams r))) as [Hn|Hn].
    { split; [|reflexivity]. intros e. cbn [fst]. split.
      - intros H; inversion H. split; [reflexivity|]. right. by repeat split.
      - intros [_ [[Hz _]|(_ & _ & ->)]]; [contradiction|reflexivity]. }
    destruct (strings.HasPrefix (url r) ":"); cbn [fst snd].
    + split; [|reflexivity]. intros e. split; [discriminate|].
      intros [_ [[Hz _]|(_ & Hne & _)]]; contradiction.
    + split; [|intros Hbad; by destruct Hbad]. intros e. split; [discriminate|].
      intros [_ [[Hz _]|(_ & Hne & _)]]; contradiction.
  - cbn [fst snd]. split; [|reflexivity]. intros e.
    split; [discriminate|]. intros [Hf _]. discriminate Hf.
Qed.

(** ** The shape of the basic-auth token *)

Section Token.

Lemma get_Contains (s : string) (n : nat) (c : ascii) :
  String.get n s = Some c -> strings.Contains s (String c EmptyString) = true.
Proof.
  revert n. induction s as [|d s IH]; intros n Hn; [discriminate|].
  cbn [strings.Contains]. rewrite prefix_cons, prefix_nil, andb_true_r.
  destruct n as [|n].
  - cbn in Hn. injection Hn as ->. by rewrite Ascii.eqb_refl.
  - cbn in Hn. rewrite (IH _ Hn). apply orb_true_r.
Qed.

Lemma enc_base64Char (v : N) : base64Char (base64.enc v) = true.
Proof.
  unfold base64Char, base64.enc.
  destruct (String.get (N.to_nat v) base64.encodeStd) as [c|] eqn:Hg.
  - by rewrite (get_Contains _ _ _ Hg).
  - apply orb_true_r.
Qed.

(** Induction over a list three elements at a time. *)
Lemma triples_ind (P : list N -> Prop) :
  P [] ->
  (forall x, P [x]) ->
  (forall x y, P [x; y]) ->
  (forall x y z rest, P rest -> P (x :: y :: z :: rest)) ->
  forall l, P l.
Proof.
  intros H0 H1 H2 H3 l.
  assert (forall n (k : list N), length k <= n -> P k) as Hall.
  { intros n. induction n as [|n IH]; intros k Hk.
    - destruct k; [exact H0|cbn in Hk; lia].
    - destruct k as [|x [|y [|z rest]]]; auto.
      apply H3, IH. cbn in Hk. lia. }
  by apply (Hall (length l)).
Qed.

Lemma encode_chars (src : list N) :
  Forall (fun c => base64Char c = true) (list_ascii_of_string (base64.encode src)).
Proof.
  assert (base64Char "=" = true) as Hpad by reflexivity.
  induction src as [|x|x y|x y z rest IH] using triples_ind;
    cbn [base64.encode base64.put list_ascii_of_string].
  - constructor.
  - do 2 (constructor; [apply enc_base64Char|]).
    do 2 (constructor; [exact Hpad|]). constructor.
  - do 3 (constructor; [apply enc_base64Char|]).
    constructor; [exact Hpad|]. constructor.
  - do 4 (constructor; [apply enc_base64Char|]). exact IH.
Qed.

Lemma encode_length (src : list N) :
  String.length (base64.encode src) = 4 * ((length src + 2) / 3).
Proof.
  induction src as [|x|x y|x y z rest IH] using triples_ind.
  - reflexivity.
  - reflexivity.
  - reflexivity.
  - cbn [base64.encode base64.put String.length length]. rewrite IH.
    replace (S (S (S (length rest))) + 2) with ((length rest + 2) + 1 * 3) by lia.
    rewrite Nat.div_add by lia. lia.
Qed.

Lemma length_list_ascii (s : string) :
  length (list_ascii_of_string s) = String.length s.
Proof. induction s as [|c s IH]; [reflexivity|]. cbn. by rewrite IH. Qed.

Lemma length_append (s t : string) :
  String.length (s +:+ t) = String.length s + String.length t.
Proof.
  induction s as [|c s IH]; [reflexivity|].
  rewrite append_cons. cbn [String.length]. by rewrite IH.
Qed.

End Token.

(** X19: whatever the user name and the password are, the token that
    [basicAuth] builds consists of characters of the base64 alphabet and
    '=' only, and is four characters long for every three bytes, rounded
    up, of user name, colon and password. *)
Theorem X19_basic_auth_token (username password : string) :
  Forall (fun c => base64Char c = true)
         (list_ascii_of_string (basicAuth username password))
  /\ String.length (basicAuth username password)
     = 4 * ((String.length username + 1 + String.length password + 2) / 3).
Proof.
  unfold basicAuth, base64.EncodeToString. split; [apply encode_chars|].
  rewrite encode_length, length_map, length_list_ascii, !length_append.
  change (String.length ":") with 1. by rewrite Nat.add_assoc.
Qed.
